(** * mcl_orthologues: MCL clusters, GenBank features and ACT [.crunch] files

    A shallow embedding of the three functions of the notebook
    [Comparative_Genomics_and_Visualisation/Part_2/mcl_orthologues/mcl_orthologues.ipynb]:
    [read_mcl], [read_genbank] and [write_crunch], with the two variants
    of [split_seqid] they use.

    Python values are modelled as follows.
    - [str] is [string] (a sequence of bytes, as in Python 2);
    - [int] is [Z];
    - a tuple of identifiers and a list are [list];
    - the feature tuple [(source, start, end, strand)] is a product;
    - a [dict] is a [gmap], a [set] is a [gset];
    - a raised exception is the [Err] case of [result]. *)

From Stdlib Require Import ZArith Ascii String List Permutation.
From stdpp Require Import base gmap strings list fin_maps fin_sets pretty.

Local Open Scope Z_scope.

(** ** Exceptions *)

Inductive error : Type :=
| IndexError
| KeyError (key : string).

Inductive result (A : Type) : Type :=
| Ok (a : A)
| Err (e : error).
Arguments Ok {A} a.
Arguments Err {A} e.

(** Sequencing: an exception of the first computation ends the run. *)
#[global] Instance result_bind : MBind result := λ A B k r,
  match r with
  | Ok a => k a
  | Err e => Err e
  end.

(** [[f(x) for x in l]] where [f] may raise: the first exception wins. *)
Fixpoint map_result {A B : Type} (f : A → result B) (l : list A) : result (list B) :=
  match l with
  | [] => Ok []
  | x :: l' => y ← f x ; ys ← map_result f l' ; Ok (y :: ys)
  end.

(** A [for] loop over [l] that threads the state [s] and may raise. *)
Fixpoint for_each {A S : Type} (body : S → A → result S) (s : S) (l : list A) : result S :=
  match l with
  | [] => Ok s
  | x :: l' => s' ← body s x ; for_each body s' l'
  end.

(** ** Python string primitives *)

Module Py.

(** [l[i]] with Python's negative indices. *)
Definition index {A : Type} (l : list A) (i : Z) : result A :=
  let n := Z.of_nat (length l) in
  let j := if i <? 0 then n + i else i in
  if (0 <=? j) && (j <? n)
  then match l !! Z.to_nat j with
       | Some x => Ok x
       | None => Err IndexError
       end
  else Err IndexError.

(** [s.split(c)] for a one-character separator [c]. *)
Fixpoint split (c : ascii) (s : string) : list string :=
  match s with
  | EmptyString => [EmptyString]
  | String a s' =>
      if Ascii.eqb a c then EmptyString :: split c s'
      else match split c s' with
           | [] => [String a EmptyString]
           | h :: t => String a h :: t
           end
  end.

(** [string.whitespace] of Python 2: space, [\t], [\n], [\v], [\f], [\r]. *)
Definition isspace (a : ascii) : bool :=
  let n := nat_of_ascii a in
  (n =? 32)%nat || ((9 <=? n)%nat && (n <=? 13)%nat).

Fixpoint lstrip (s : string) : string :=
  match s with
  | EmptyString => EmptyString
  | String a s' => if isspace a then lstrip s' else s
  end.

Fixpoint rstrip (s : string) : string :=
  match s with
  | EmptyString => EmptyString
  | String a s' =>
      match rstrip s' with
      | EmptyString => if isspace a then EmptyString else String a EmptyString
      | r => String a r
      end
  end.

(** [s.strip()] *)
Definition strip (s : string) : string := rstrip (lstrip s).

(** [s.split()] without a separator: the maximal runs of characters that
    are not whitespace.  [cur] is the run being read, reversed. *)
Fixpoint split_ws_from (cur : list ascii) (s : string) : list string :=
  match s with
  | EmptyString =>
      match cur with
      | [] => []
      | _ => [string_of_list_ascii (rev cur)]
      end
  | String a s' =>
      if isspace a
      then match cur with
           | [] => split_ws_from [] s'
           | _ => string_of_list_ascii (rev cur) :: split_ws_from [] s'
           end
      else split_ws_from (a :: cur) s'
  end.

Definition split_ws (s : string) : list string := split_ws_from [] s.

(** [sep.join(l)] *)
Fixpoint join (sep : string) (l : list string) : string :=
  match l with
  | [] => EmptyString
  | [x] => x
  | x :: l' => x +:+ sep +:+ join sep l'
  end.

(** [str(n)] for an integer. *)
Definition str (n : Z) : string := pretty n.

(** Iterating over a file opened with mode ['rU']: the lines, each with
    its terminator, where [\n], [\r\n] and [\r] all end a line and are
    read as [\n].  [cur] is the line being read, reversed. *)
Fixpoint readlines_from (cur : list ascii) (s : string) : list string :=
  let emit := string_of_list_ascii (rev ("010"%char :: cur)) in
  match s with
  | EmptyString =>
      match cur with
      | [] => []
      | _ => [string_of_list_ascii (rev cur)]
      end
  | String a s' =>
      if Ascii.eqb a "010"%char then emit :: readlines_from [] s'
      else if Ascii.eqb a "013"%char then
        match s' with
        | String b s'' =>
            if Ascii.eqb b "010"%char then emit :: readlines_from [] s''
            else emit :: readlines_from [] s'
        | EmptyString => emit :: readlines_from [] s'
        end
      else readlines_from (a :: cur) s'
  end.

Definition readlines (content : string) : list string := readlines_from [] content.

(** [os.path.join(a, b)] on a POSIX system. *)
Definition path_join (a b : string) : string :=
  match b with
  | String "/"%char _ => b
  | _ =>
      match a with
      | EmptyString => b
      | _ => if String.eqb (substring (String.length a - 1) 1 a) "/"
             then a +:+ b else a +:+ "/" +:+ b
      end
  end.

End Py.

(** ** 1. Reading MCL output *)

Module Reader.

(** [seqid.split('|')[-2]] *)
Definition split_seqid (seqid : string) : result string :=
  Py.index (Py.split "|"%char seqid) (-2).

(** The lines that pass [len(l.strip())], each as [l.strip().split()]. *)
Definition token_lines (lines : list string) : list (list string) :=
  (fun l => Py.split_ws (Py.strip l))
    <$> filter (fun l => (0 <? String.length (Py.strip l))%nat = true) lines.

(** [read_mcl], on the content of the file [filename]. *)
Definition read_mcl (content : string) : result (list (list string)) :=
  for_each
    (fun clusters line =>
       c ← map_result split_seqid line ; Ok (clusters ++ [c]))
    [] (token_lines (Py.readlines content)).

End Reader.

(** [d[k]] on a dictionary: a missing key raises [KeyError]. *)
Definition getitem {V : Type} (d : gmap string V) (k : string) : result V :=
  match d !! k with
  | Some v => Ok v
  | None => Err (KeyError k)
  end.

(** ** 2. Loading GenBank data *)

(** The tuple [(source, start, end, strand)] stored for a CDS. *)
Abbreviation Feature := (string * Z * Z * Z)%type.

Definition ft_source (ft : Feature) : string := ft.1.1.1.
Definition ft_start (ft : Feature) : Z := ft.1.1.2.
Definition ft_end (ft : Feature) : Z := ft.1.2.
Definition ft_strand (ft : Feature) : Z := ft.2.

Module Genbank.

(** What [read_genbank] reads of a feature of a Biopython record:
    [f.type], [f.qualifiers], and [f.location.start], [.end], [.strand]. *)
Record SeqFeature : Type := {
  type : string;
  qualifiers : gmap string (list string);
  location_start : Z;
  location_end : Z;
  location_strand : Z
}.

(** What it reads of the record [SeqIO.read(fh, 'genbank')] of a file. *)
Record SeqRecord : Type := {
  annotations : gmap string string;
  id : string;
  features : list SeqFeature
}.

Definition is_CDS (f : SeqFeature) : Prop := type f = "CDS".

#[global] Instance is_CDS_dec f : Decision (is_CDS f).
Proof. unfold is_CDS. apply _. Defined.

(** The name in the corresponding [.fna] file. *)
Definition record_name (record : SeqRecord) : result string :=
  gi ← getitem (annotations record) "gi" ;
  Ok (Py.join "|" ["gi"; gi; "ref"; id record]).

(** The body of the loop over the CDS features of one record. *)
Definition add_feature (name : string) (ft_dict : gmap string Feature)
    (ft : SeqFeature) : result (gmap string Feature) :=
  q ← getitem (qualifiers ft) "protein_id" ;
  protein_id ← Py.index q 0 ;
  Ok (<[protein_id := (name, location_start ft, location_end ft, location_strand ft)]> ft_dict).

(** The body of the loop over the files. *)
Definition add_record (ft_dict : gmap string Feature) (record : SeqRecord)
    : result (gmap string Feature) :=
  name ← record_name record ;
  for_each (add_feature name) ft_dict (filter is_CDS (features record)).

(** [read_genbank], on the records parsed from the files [*filenames],
    in the order of the arguments. *)
Definition read_genbank (records : list SeqRecord) : result (gmap string Feature) :=
  for_each add_record ∅ records.

End Genbank.

(** ** 3. Writing [.crunch] output *)

Module Writer.

(** [seqid.split('|')[-1].split('.')[0]] *)
Definition split_seqid (seqid : string) : result string :=
  last_seg ← Py.index (Py.split "|"%char seqid) (-1) ;
  Py.index (Py.split "."%char last_seg) 0.

(** [x < y] on feature tuples: the first component that differs decides. *)
Definition feature_ltb (x y : Feature) : bool :=
  if negb (String.eqb (ft_source x) (ft_source y)) then String.ltb (ft_source x) (ft_source y)
  else if negb (ft_start x =? ft_start y) then ft_start x <? ft_start y
  else if negb (ft_end x =? ft_end y) then ft_end x <? ft_end y
  else ft_strand x <? ft_strand y.

(** [sorted([x, y])]: the sort is stable, [y] moves first only if [y < x]. *)
Definition sorted2 (x y : Feature) : Feature * Feature :=
  if feature_ltb y x then (y, x) else (x, y).

(** [itertools.combinations(cluster, 2)] *)
Fixpoint combinations2 {A : Type} (cluster : list A) : list (A * A) :=
  match cluster with
  | [] => []
  | x :: rest => (pair x <$> rest) ++ combinations2 rest
  end.

(** [pairs_dict[key].add(entry)] on a [defaultdict(set)]. *)
Definition add_entry (key : string) (entry : Feature * Feature)
    (pairs_dict : gmap string (gset (Feature * Feature)))
    : gmap string (gset (Feature * Feature)) :=
  <[key := default ∅ (pairs_dict !! key) ∪ {[entry]}]> pairs_dict.

(** ["%s_vs_%s" % (source1, source2)] *)
Definition group_key (source1 source2 : string) : string :=
  source1 +:+ "_vs_" +:+ source2.

(** The body of the loop over the pairs of a cluster. *)
Definition process_pair (features : gmap string Feature)
    (pairs_dict : gmap string (gset (Feature * Feature)))
    (pair : string * string) : result (gmap string (gset (Feature * Feature))) :=
  f0 ← getitem features pair.1 ;
  f1 ← getitem features pair.2 ;
  let '(ft1, ft2) := sorted2 f0 f1 in
  source1 ← split_seqid (ft_source ft1) ;
  source2 ← split_seqid (ft_source ft2) ;
  Ok (add_entry (group_key source1 source2) (ft1, ft2) pairs_dict).

(** The first loop of [write_crunch]. *)
Definition group_pairs (clusters : list (list string)) (features : gmap string Feature)
    : result (gmap string (gset (Feature * Feature))) :=
  for_each
    (fun pairs_dict cluster =>
       for_each (process_pair features) pairs_dict (combinations2 cluster))
    ∅ clusters.

(** The start and end columns of a feature, swapped on the reverse strand. *)
Definition crunch_start (ft : Feature) : string :=
  if ft_strand ft <? 0 then Py.str (ft_end ft) else Py.str (ft_start ft).
Definition crunch_end (ft : Feature) : string :=
  if ft_strand ft <? 0 then Py.str (ft_start ft) else Py.str (ft_end ft).

(** The string of one [fh.write]. *)
Definition crunch_line (entry : Feature * Feature) : string :=
  Py.join " " ["100"; "100";
               crunch_start entry.1; crunch_end entry.1; ft_source entry.1;
               crunch_start entry.2; crunch_end entry.2; ft_source entry.2]
  +:+ String "010"%char EmptyString.

(** A file opened for writing, and the strings written to it. *)
Record crunch_file : Type := {
  path : string;
  lines : list string
}.

Definition crunch_path (outdir key : string) : string :=
  Py.path_join outdir (key +:+ ".crunch").

(** The second loop of [write_crunch]: one file per item of [pairs_dict],
    one line per element of its set.  Python fixes neither the order of
    the items of a dictionary nor that of the elements of a set; the
    order of [map_to_list] and [elements] stands for it here, and no
    statement below depends on it. The [print] of the loop is left out. *)
Definition write_files (outdir : string)
    (pairs_dict : gmap string (gset (Feature * Feature))) : list crunch_file :=
  (fun kv => {| path := crunch_path outdir kv.1;
                lines := crunch_line <$> elements kv.2 |})
    <$> map_to_list pairs_dict.

(** [write_crunch]: the files written, or the exception raised while
    grouping, before any file is opened. *)
Definition write_crunch (clusters : list (list string)) (features : gmap string Feature)
    (outdir : string) : result (list crunch_file) :=
  pairs_dict ← group_pairs clusters features ;
  Ok (write_files outdir pairs_dict).

End Writer.

(** The cell between the reader and the writer:
    [[c for c in all_clusters if len(c) > 1]]. *)
Definition drop_singletons (all_clusters : list (list string)) : list (list string) :=
  filter (fun c => (1 < length c)%nat) all_clusters.

Definition tab : string := String "009"%char EmptyString.
Definition nl : string := String "010"%char EmptyString.

(** ** Vocabulary of the statements *)

(** The character [c] occurs in [s]. *)
Fixpoint contains (c : ascii) (s : string) : bool :=
  match s with
  | EmptyString => false
  | String a s' => Ascii.eqb a c || contains c s'
  end.

(** Every token of every cluster line of the file has a ['|']. *)
Definition all_tokens_have_bar (content : string) : bool :=
  forallb (forallb (contains "|"%char)) (Reader.token_lines (Py.readlines content)).

(** The lines of a file that are not empty once stripped. *)
Definition nonempty_lines (content : string) : list string :=
  filter (fun l => Py.strip l ≠ EmptyString) (Py.readlines content).

(** [id] is the second-to-last ['|'] segment of [tok]. *)
Definition penultimate_segment (tok id : string) : Prop :=
  ∃ pre lastseg, Py.split "|"%char tok = pre ++ [id; lastseg].

(** A cluster file of three lines, the second one empty. *)
Definition example_cluster_file : string :=
  "gi|1|ref|YP_1.1|" +:+ tab +:+ "gi|2|ref|YP_2.1|" +:+ nl +:+ nl +:+ "gi|3|ref|YP_3.1|" +:+ nl.

(** The comparator the design notes ask for: source name, then start,
    then end, then strand. *)
Definition feature_le (x y : Feature) : Prop :=
  String.compare (ft_source x) (ft_source y) = Lt ∨
  (ft_source x = ft_source y ∧
   (ft_start x < ft_start y ∨
    (ft_start x = ft_start y ∧
     (ft_end x < ft_end y ∨
      (ft_end x = ft_end y ∧ ft_strand x ≤ ft_strand y))))).

(** The key of the group of a sorted pair of features. *)
Definition entry_key (entry : Feature * Feature) : result string :=
  source1 ← Writer.split_seqid (ft_source entry.1) ;
  source2 ← Writer.split_seqid (ft_source entry.2) ;
  Ok (Writer.group_key source1 source2).

(** The pairs that [write_crunch] processes, in order. *)
Definition all_pairs (clusters : list (list string)) : list (string * string) :=
  clusters ≫= Writer.combinations2.

(** [entry] is in the set stored under [key]. *)
Definition stored (pairs_dict : gmap string (gset (Feature * Feature)))
    (key : string) (entry : Feature * Feature) : Prop :=
  ∃ v, pairs_dict !! key = Some v ∧ entry ∈ v.

(** [entry] under [key] is what a pair of [pairs] contributes. *)
Definition contributed (features : gmap string Feature) (pairs : list (string * string))
    (key : string) (entry : Feature * Feature) : Prop :=
  ∃ a b f1 f2,
    (a, b) ∈ pairs ∧ features !! a = Some f1 ∧ features !! b = Some f2 ∧
    entry = Writer.sorted2 f1 f2 ∧ entry_key entry = Ok key.

(** The start and end columns of a feature as the format describes them:
    swapped when the strand is negative. *)
Definition crunch_columns (ft : Feature) : string * string :=
  if decide (ft_strand ft < 0)
  then (Py.str (ft_end ft), Py.str (ft_start ft))
  else (Py.str (ft_start ft), Py.str (ft_end ft)).

(** The end-to-end scenario: a cluster file of two lines and two features. *)
Definition scenario_file : string :=
  "id1" +:+ tab +:+ "id2" +:+ nl +:+ "id3" +:+ nl.

Definition scenario_features : gmap string Feature :=
  <["id1" := ("orgA", 0, 10, 1)]> (<["id2" := ("orgB", 5, 15, 1)]> ∅).

(** The same clusters with identifiers in the form that [read_mcl] reads. *)
Definition scenario_file_composite : string :=
  "gi|1|ref|id1|" +:+ tab +:+ "gi|2|ref|id2|" +:+ nl +:+ "gi|3|ref|id3|" +:+ nl.

(** The protein identifier of a feature: the first value of its
    [protein_id] qualifier. *)
Definition protein_id (ft : Genbank.SeqFeature) : option string :=
  Genbank.qualifiers ft !! "protein_id" ≫= head.

(** The source name of a record: [gi|<numeric identifier>|ref|<accession>]. *)
Definition source_name (record : Genbank.SeqRecord) : option string :=
  gi ← Genbank.annotations record !! "gi" ;
  Some ("gi|" +:+ gi +:+ "|ref|" +:+ Genbank.id record).

(** The mapping entries of the CDS features of a list of features. *)
Definition feature_entries (name : string) (fts : list Genbank.SeqFeature)
    : list (string * Feature) :=
  omap (fun ft =>
          pid ← protein_id ft ;
          Some (pid, (name, Genbank.location_start ft, Genbank.location_end ft,
                      Genbank.location_strand ft)))
       (filter Genbank.is_CDS fts).

(** The mapping entries of the files, in the order of the files and, in
    a file, of its features. *)
Definition entries (records : list Genbank.SeqRecord) : list (string * Feature) :=
  records ≫= fun record =>
    match source_name record with
    | Some name => feature_entries name (Genbank.features record)
    | None => []
    end.

(** Every record has a [gi] annotation and every CDS a protein identifier. *)
Definition annotated (records : list Genbank.SeqRecord) : Prop :=
  Forall (fun record =>
            is_Some (source_name record) ∧
            Forall (fun ft => Genbank.is_CDS ft → is_Some (protein_id ft))
                   (Genbank.features record))
         records.

(** Two files that both have a CDS for the protein [YP_1.1]. *)
Definition example_records : list Genbank.SeqRecord :=
  [ {| Genbank.annotations := {[ "gi" := "1" ]};
       Genbank.id := "NC_1.1";
       Genbank.features :=
         [ {| Genbank.type := "gene"; Genbank.qualifiers := ∅;
              Genbank.location_start := 0; Genbank.location_end := 30;
              Genbank.location_strand := 1 |};
           {| Genbank.type := "CDS";
              Genbank.qualifiers := {[ "protein_id" := ["YP_1.1"] ]};
              Genbank.location_start := 0; Genbank.location_end := 30;
              Genbank.location_strand := 1 |} ] |};
    {| Genbank.annotations := {[ "gi" := "2" ]};
       Genbank.id := "NC_2.1";
       Genbank.features :=
         [ {| Genbank.type := "CDS";
              Genbank.qualifiers := {[ "protein_id" := ["YP_1.1"] ]};
              Genbank.location_start := 7; Genbank.location_end := 90;
              Genbank.location_strand := -1 |} ] |} ].

(** Storing entries one after the other. *)
Definition store_all (d : gmap string Feature) (es : list (string * Feature))
    : gmap string Feature :=
  foldl (fun d e => <[e.1 := e.2]> d) d es.

(** ** Vocabulary of the further properties *)


(** [s] is an absolute path: it begins with ['/']. *)
Definition starts_with_slash (s : string) : bool :=
  match s with
  | String "/"%char _ => true
  | _ => false
  end.

(** The prefix that [os.path.join(a, b)] puts before a relative [b]. *)
Definition dir_prefix (a : string) : string :=
  match a with
  | EmptyString => EmptyString
  | _ => if String.eqb (substring (String.length a - 1) 1 a) "/" then a else a +:+ "/"
  end.


(** The number of lines written, over all the files. *)
Definition total_lines (files : list Writer.crunch_file) : nat :=
  sum_list_with (fun f => length (Writer.lines f)) files.

(** The number of stored pairs, over all the groups. *)
Definition total_entries (d : gmap string (gset (Feature * Feature))) : nat :=
  sum_list_with (fun kv => size kv.2) (map_to_list d).


(** Every character of [s] passes [P]. *)
Fixpoint string_forallb (P : ascii → bool) (s : string) : bool :=
  match s with
  | EmptyString => true
  | String a s' => P a && string_forallb P s'
  end.

(** [s] is made of whitespace only. *)
Definition blank (s : string) : bool := string_forallb Py.isspace s.

(** [s] has no whitespace. *)
Definition spaceless (s : string) : bool :=
  string_forallb (fun a => negb (Py.isspace a)) s.


(** The number of CDS features of the files. *)
Definition cds_count (records : list Genbank.SeqRecord) : nat :=
  sum_list_with (fun record => length (filter Genbank.is_CDS (Genbank.features record)))
                records.

(** Why the loop over the CDS features of a file stops. *)
Definition feature_failure (fts : list Genbank.SeqFeature) (e : error) : Prop :=
  ∃ ft, ft ∈ fts ∧ Genbank.is_CDS ft ∧
        ((e = KeyError "protein_id" ∧ Genbank.qualifiers ft !! "protein_id" = None) ∨
         (e = IndexError ∧ Genbank.qualifiers ft !! "protein_id" = Some [])).

(** Why [read_genbank] stops. *)
Definition record_failure (records : list Genbank.SeqRecord) (e : error) : Prop :=
  ∃ record, record ∈ records ∧
    ((e = KeyError "gi" ∧ Genbank.annotations record !! "gi" = None) ∨
     feature_failure (Genbank.features record) e).

(** The file that [write_crunch] writes on the scenario. *)
Definition scenario_files : list Writer.crunch_file :=
  [ {| Writer.path := "data/orgA_vs_orgB.crunch";
       Writer.lines := ["100 100 0 10 orgA 5 15 orgB" +:+ nl] |} ].

(** Three features, two of one source, and one on the reverse strand. *)
Definition example_features : gmap string Feature :=
  <["x1" := ("gi|1|ref|NC_1.1", 0, 10, 1)]>
    (<["x2" := ("gi|2|ref|NC_2.1", 5, 15, -1)]>
       (<["x3" := ("gi|1|ref|NC_1.1", 20, 30, 1)]> ∅)).


(** The code cells in the order of the notebook: [read_mcl] on the
    cluster file, the singleton filter on its result, and [write_crunch]
    on the filtered clusters. *)
Definition run_cells (content : string) (features : gmap string Feature)
    (outdir : string) : result (list Writer.crunch_file) :=
  all_clusters ← Reader.read_mcl content ;
  Writer.write_crunch (drop_singletons all_clusters) features outdir.

(** * Properties *)

(** ** Sanity checks of the embedding on concrete inputs *)

Example read_mcl_two_lines :
  Reader.read_mcl example_cluster_file
  = Ok [["YP_1.1"; "YP_2.1"]; ["YP_3.1"]].
Proof. vm_compute. reflexivity. Qed.

Example str_examples : Py.str 0 = "0" ∧ Py.str 1234 = "1234" ∧ Py.str (-15) = "-15".
Proof. vm_compute. auto. Qed.

Example split_examples :
  Py.split "|"%char "gi|188535157|ref|YP_001908954.1|"
  = ["gi"; "188535157"; "ref"; "YP_001908954.1"; ""] ∧
  Py.split "|"%char "" = [""] ∧
  Py.split_ws (Py.strip ("  a" +:+ tab +:+ tab +:+ "b c " +:+ nl)) = ["a"; "b"; "c"] ∧
  Py.strip (" " +:+ tab +:+ nl) = "".
Proof. vm_compute. auto. Qed.

Example path_join_examples :
  Py.path_join "data" "a.crunch" = "data/a.crunch" ∧
  Py.path_join "data/" "a.crunch" = "data/a.crunch" ∧
  Py.path_join "" "a.crunch" = "a.crunch" ∧
  Py.path_join "data" "/a.crunch" = "/a.crunch".
Proof. vm_compute. auto. Qed.

Example split_seqid_examples :
  Reader.split_seqid "gi|188535157|ref|YP_001908954.1|" = Ok "YP_001908954.1" ∧
  Writer.split_seqid "gi|50118965|ref|NC_004547.2" = Ok "NC_004547" ∧
  Writer.split_seqid "gi|188535157|ref|YP_001908954.1|" = Ok "".
Proof. vm_compute. auto. Qed.

(** The scenario with identifiers in the form [read_mcl] reads goes
    through the three cells; on the bare identifiers [read_mcl] raises. *)
Example full_pipeline_composite :
  Reader.read_mcl scenario_file_composite = Ok [["id1"; "id2"]; ["id3"]] ∧
  (clusters ← Reader.read_mcl scenario_file_composite ;
   Writer.write_crunch (drop_singletons clusters) scenario_features "data")
  = Ok [ {| Writer.path := "data/orgA_vs_orgB.crunch";
            Writer.lines := ["100 100 0 10 orgA 5 15 orgB" +:+ nl] |} ] ∧
  Reader.read_mcl scenario_file = Err IndexError.
Proof. vm_compute. auto. Qed.

Example readlines_example :
  Py.readlines ("a" +:+ String "013"%char nl +:+ "b" +:+ String "013"%char "c")
  = ["a" +:+ nl; "b" +:+ nl; "c"].
Proof. vm_compute. reflexivity. Qed.

Example write_crunch_example :
  Writer.write_crunch (drop_singletons [["id1"; "id2"]; ["id3"]])
    (<["id1" := ("orgA", 0, 10, 1)]> (<["id2" := ("orgB", 5, 15, 1)]> ∅)) "data"
  = Ok [ {| Writer.path := "data/orgA_vs_orgB.crunch";
            Writer.lines := ["100 100 0 10 orgA 5 15 orgB" +:+ nl] |} ].
Proof. vm_compute. reflexivity. Qed.

(** ** Indexing *)

Lemma index_from_end {A : Type} (l : list A) (k : nat) :
  Py.index l (- Z.of_nat (S k)) =
    if decide (S k ≤ length l)%nat
    then match l !! (length l - S k)%nat with
         | Some x => Ok x
         | None => Err IndexError
         end
    else Err IndexError.
Proof.
  unfold Py.index.
  assert ((- Z.of_nat (S k) <? 0) = true) as -> by (apply Z.ltb_lt; lia).
  case_decide as Hk.
  - assert ((0 <=? Z.of_nat (length l) + - Z.of_nat (S k)) = true) as ->
      by (apply Z.leb_le; lia).
    assert ((Z.of_nat (length l) + - Z.of_nat (S k) <? Z.of_nat (length l)) = true) as ->
      by (apply Z.ltb_lt; lia).
    simpl andb. cbv iota.
    by replace (Z.to_nat (Z.of_nat (length l) + - Z.of_nat (S k)))
      with (length l - S k)%nat by lia.
  - assert ((0 <=? Z.of_nat (length l) + - Z.of_nat (S k)) = false) as ->
      by (apply Z.leb_gt; lia).
    reflexivity.
Qed.

Lemma index_last {A : Type} (l : list A) (x : A) : Py.index (l ++ [x]) (-1) = Ok x.
Proof.
  change (-1) with (- Z.of_nat 1). rewrite index_from_end, length_app. simpl length.
  case_decide; [|lia].
  rewrite lookup_app_r by lia.
  by replace (length l + 1 - 1 - length l)%nat with 0%nat by lia.
Qed.

Lemma index_zero {A : Type} (x : A) (l : list A) : Py.index (x :: l) 0 = Ok x.
Proof.
  reflexivity.
Qed.

Lemma index_penultimate {A : Type} (l : list A) (x y : A) :
  Py.index (l ++ [x; y]) (-2) = Ok x.
Proof.
  change (-2) with (- Z.of_nat 2). rewrite index_from_end, length_app. simpl length.
  case_decide; [|lia].
  rewrite lookup_app_r by lia.
  by replace (length l + 2 - 2 - length l)%nat with 0%nat by lia.
Qed.

Lemma index_penultimate_short {A : Type} (l : list A) :
  (length l < 2)%nat → Py.index l (-2) = Err IndexError.
Proof.
  intros H. change (-2) with (- Z.of_nat 2). rewrite index_from_end.
  case_decide; [lia|done].
Qed.

(** A list of at least two elements ends with two elements. *)
Lemma two_last {A : Type} (l : list A) :
  (2 ≤ length l)%nat → ∃ pre x y, l = pre ++ [x; y].
Proof.
  intros H.
  destruct (decide (l = [])) as [->|Hne]; [simpl in H; lia|].
  destruct (exists_last Hne) as [l1 [y ->]].
  rewrite length_app in H. simpl in H.
  destruct (decide (l1 = [])) as [->|Hne1]; [simpl in H; lia|].
  destruct (exists_last Hne1) as [pre [x ->]].
  exists pre, x, y. by rewrite <- app_assoc.
Qed.

(** ** Splitting at a character *)

Lemma split_cons (c : ascii) (s : string) : ∃ h t, Py.split c s = h :: t.
Proof.
  induction s as [|a s [h [t IH]]]; simpl; [by eauto|].
  destruct (Ascii.eqb a c); [by eauto|]. rewrite IH. by eauto.
Qed.

Lemma split_absent (c : ascii) (s : string) :
  contains c s = false → Py.split c s = [s].
Proof.
  induction s as [|a s IH]; simpl; [done|].
  destruct (Ascii.eqb a c); simpl; [done|].
  intros H. by rewrite (IH H).
Qed.

Lemma split_present (c : ascii) (s : string) :
  contains c s = true → (2 ≤ length (Py.split c s))%nat.
Proof.
  induction s as [|a s IH]; simpl; [done|].
  destruct (Ascii.eqb a c); simpl.
  - intros _. destruct (split_cons c s) as [h [t ->]]. simpl. lia.
  - intros H. specialize (IH H).
    destruct (Py.split c s) as [|h t]; simpl in *; lia.
Qed.

(** No segment holds the separator, and a character that is in no part of
    [s] is in no segment. *)
Lemma split_segments_free (c d : ascii) (s : string) :
  (d = c ∨ contains d s = false) →
  Forall (fun x => contains d x = false) (Py.split c s).
Proof.
  induction s as [|a s IH]; simpl; intros H.
  - by constructor.
  - destruct (Ascii.eqb a c) eqn:Hac.
    + constructor; [done|]. apply IH.
      destruct H as [H|H]; [by left|right].
      by apply orb_false_iff in H as [_ H].
    + assert (Ascii.eqb a d = false) as Had.
      { destruct H as [->|H]; [done|]. by apply orb_false_iff in H as [H _]. }
      assert (d = c ∨ contains d s = false) as H'.
      { destruct H as [H|H]; [by left|right]. by apply orb_false_iff in H as [_ H]. }
      specialize (IH H').
      destruct (Py.split c s) as [|h t]; constructor; simpl.
      * by rewrite Had.
      * constructor.
      * rewrite Had. simpl. by inversion IH.
      * by inversion IH.
Qed.

Lemma join_cons2 (sep x y : string) (l : list string) :
  Py.join sep (x :: y :: l) = x +:+ sep +:+ Py.join sep (y :: l).
Proof. reflexivity. Qed.

(** Joining the segments with the separator gives the string back. *)
Lemma join_split (c : ascii) (s : string) :
  Py.join (String c EmptyString) (Py.split c s) = s.
Proof.
  induction s as [|a s IH]; [done|].
  cbn [Py.split].
  destruct (Ascii.eqb_spec a c) as [->|Hne].
  - destruct (split_cons c s) as [h [t Hs]]. rewrite Hs in IH |- *.
    rewrite join_cons2, IH. reflexivity.
  - destruct (Py.split c s) as [|h [|h' t]].
    + simpl in IH. by subst.
    + simpl in *. by subst.
    + rewrite join_cons2 in *. rewrite <- IH. reflexivity.
Qed.

(** ** The two variants of [split_seqid] *)

(** The writer's variant never raises: it returns the last ['|'] segment up
    to its first ['.'], a string with neither character. *)
Lemma writer_split_seqid_spec (s : string) :
  ∃ pre seg r,
    Py.split "|"%char s = pre ++ [seg] ∧
    Writer.split_seqid s = Ok r ∧
    contains "|"%char r = false ∧
    contains "."%char r = false ∧
    (seg = r ∨ ∃ rest, seg = r +:+ "." +:+ rest).
Proof.
  destruct (split_cons "|"%char s) as [h [t Hs]].
  assert (h :: t ≠ []) as Hne by done.
  destruct (exists_last Hne) as [pre [seg Hpre]].
  assert (contains "|"%char seg = false) as Hseg.
  { pose proof (split_segments_free "|"%char "|"%char s (or_introl eq_refl)) as HF.
    rewrite Hs, Hpre in HF. apply Forall_app in HF as [_ HF]. by inversion HF. }
  destruct (split_cons "."%char seg) as [r [t' Hr]].
  exists pre, seg, r. repeat split.
  - by rewrite Hs.
  - unfold Writer.split_seqid. rewrite Hs, Hpre, index_last. simpl.
    rewrite Hr. apply index_zero.
  - pose proof (split_segments_free "."%char "|"%char seg (or_intror Hseg)) as HF.
    rewrite Hr in HF. by inversion HF.
  - pose proof (split_segments_free "."%char "."%char seg (or_introl eq_refl)) as HF.
    rewrite Hr in HF. by inversion HF.
  - pose proof (join_split "."%char seg) as HJ. rewrite Hr in HJ.
    destruct t' as [|y t'].
    + left. by rewrite <- HJ.
    + right. exists (Py.join "." (y :: t')). by rewrite <- HJ.
Qed.

Lemma writer_split_seqid_fixed (r : string) :
  contains "|"%char r = false → contains "."%char r = false →
  Writer.split_seqid r = Ok r.
Proof.
  intros Hbar Hdot. unfold Writer.split_seqid.
  rewrite (split_absent _ _ Hbar). change [r] with ([] ++ [r]).
  rewrite index_last. simpl. rewrite (split_absent _ _ Hdot). apply index_zero.
Qed.

(** C8: the writer's [split_seqid] is idempotent: it returns a string on
    every input, and returns that string unchanged when applied to it;
    the last ['|'] segment of ["A|B"] is ["B"], which it maps to itself. *)
Theorem writer_split_seqid_idempotent :
  (∀ s : string, ∃ r,
      Writer.split_seqid s = Ok r ∧ Writer.split_seqid r = Ok r) ∧
  Py.index (Py.split "|"%char "A|B") (-1) = Ok "B" ∧
  Writer.split_seqid "A|B" = Ok "B" ∧
  Writer.split_seqid "B" = Ok "B".
Proof.
  split; [|by vm_compute].
  intros s. destruct (writer_split_seqid_spec s) as (pre & seg & r & _ & Hr & Hbar & Hdot & _).
  exists r. split; [done|]. by apply writer_split_seqid_fixed.
Qed.

(** The reader's variant returns the segment before the last one, and
    raises when there is no ['|']. *)
Lemma reader_split_seqid_ok (tok : string) :
  contains "|"%char tok = true →
  ∃ pre seg lastseg,
    Py.split "|"%char tok = pre ++ [seg; lastseg] ∧ Reader.split_seqid tok = Ok seg.
Proof.
  intros H. apply split_present in H.
  destruct (two_last _ H) as (pre & x & y & Hs).
  exists pre, x, y. split; [done|].
  unfold Reader.split_seqid. rewrite Hs. apply index_penultimate.
Qed.

Lemma reader_split_seqid_err (tok : string) :
  contains "|"%char tok = false → Reader.split_seqid tok = Err IndexError.
Proof.
  intros H. unfold Reader.split_seqid. rewrite (split_absent _ _ H).
  apply index_penultimate_short. simpl. lia.
Qed.

Lemma map_split_seqid (line : list string) :
  if forallb (contains "|"%char) line
  then ∃ ids, map_result Reader.split_seqid line = Ok ids ∧
              Forall2 penultimate_segment line ids
  else map_result Reader.split_seqid line = Err IndexError.
Proof.
  induction line as [|tok line IH]; simpl.
  - exists []. by split.
  - destruct (contains "|"%char tok) eqn:Htok; simpl.
    + destruct (reader_split_seqid_ok _ Htok) as (pre & seg & lastseg & Hs & ->). simpl.
      destruct (forallb (contains "|"%char) line).
      * destruct IH as (ids & -> & HF). simpl. exists (seg :: ids).
        split; [done|]. constructor; [|done]. by exists pre, lastseg.
      * by rewrite IH.
    + by rewrite (reader_split_seqid_err _ Htok).
Qed.

Lemma read_loop (lines : list (list string)) (acc : list (list string)) :
  if forallb (forallb (contains "|"%char)) lines
  then ∃ cls,
      for_each (fun clusters line =>
                  c ← map_result Reader.split_seqid line ; Ok (clusters ++ [c]))
               acc lines = Ok (acc ++ cls) ∧
      Forall2 (Forall2 penultimate_segment) lines cls
  else
      for_each (fun clusters line =>
                  c ← map_result Reader.split_seqid line ; Ok (clusters ++ [c]))
               acc lines = Err IndexError.
Proof.
  revert acc. induction lines as [|line lines IH]; intros acc; simpl.
  - exists []. by rewrite app_nil_r.
  - pose proof (map_split_seqid line) as Hline.
    destruct (forallb (contains "|"%char) line); simpl.
    + destruct Hline as (ids & -> & Hids). simpl.
      specialize (IH (acc ++ [ids])).
      destruct (forallb (forallb (contains "|"%char)) lines).
      * destruct IH as (cls & -> & Hcls). exists (ids :: cls).
        split; [by rewrite <- app_assoc|by constructor].
      * done.
    + by rewrite Hline.
Qed.

Lemma token_lines_nonempty (content : string) :
  Reader.token_lines (Py.readlines content)
  = (fun l => Py.split_ws (Py.strip l)) <$> nonempty_lines content.
Proof.
  unfold Reader.token_lines, nonempty_lines. f_equal.
  induction (Py.readlines content) as [|l ls IH]; [done|].
  rewrite !filter_cons, IH.
  destruct (Py.strip l) eqn:Hl; simpl; repeat case_decide; try done.
Qed.


Lemma all_tokens_have_bar_spec (content : string) :
  all_tokens_have_bar content = true ↔
  ∀ line tok, line ∈ Reader.token_lines (Py.readlines content) → tok ∈ line →
              contains "|"%char tok = true.
Proof.
  unfold all_tokens_have_bar. rewrite forallb_forall. split.
  - intros H line tok Hline Htok. apply list_elem_of_In in Hline, Htok.
    specialize (H line Hline). rewrite forallb_forall in H. by apply H.
  - intros H line Hline. apply forallb_forall. intros tok Htok.
    apply list_elem_of_In in Hline, Htok. by apply (H line tok).
Qed.

(** C9: [read_mcl] returns a list of clusters exactly when every token of
    every cluster line of the file has a ['|']; when some token has none,
    the reader's [split_seqid] raises [IndexError] on that token and
    [read_mcl] raises it too. *)
Theorem read_mcl_total_iff_bars (content : string) :
  ((∃ clusters, Reader.read_mcl content = Ok clusters) ↔
   (∀ line tok, line ∈ Reader.token_lines (Py.readlines content) → tok ∈ line →
                contains "|"%char tok = true)) ∧
  ((∃ line tok, line ∈ Reader.token_lines (Py.readlines content) ∧ tok ∈ line ∧
                contains "|"%char tok = false) ↔
   (Reader.read_mcl content = Err IndexError ∧
    ∃ tok, Reader.split_seqid tok = Err IndexError)).
Proof.
  pose proof (all_tokens_have_bar_spec content) as Hspec.
  pose proof (read_loop (Reader.token_lines (Py.readlines content)) []) as H.
  fold (all_tokens_have_bar content) in H. fold (Reader.read_mcl content) in H.
  destruct (all_tokens_have_bar content).
  - destruct H as (cls & Hok & _). split.
    + split; [intros _; by apply Hspec|intros _; by eauto].
    + split.
      * intros (line & tok & Hline & Htok & Hno).
        rewrite (proj1 Hspec eq_refl line tok Hline Htok) in Hno. done.
      * intros [Herr _]. rewrite Hok in Herr. done.
  - assert (∃ line tok, line ∈ Reader.token_lines (Py.readlines content) ∧ tok ∈ line ∧
                        contains "|"%char tok = false) as Hex.
    { destruct (forallb (forallb (contains "|"%char))
                  (Reader.token_lines (Py.readlines content))) eqn:Hall.
      - assert (false = true) by (apply Hspec; by apply all_tokens_have_bar_spec). done.
      - clear -Hall. induction (Reader.token_lines (Py.readlines content)) as [|l ls IH];
          [done|]. simpl in Hall. apply andb_false_iff in Hall as [Hl|Hls].
        + exists l. clear IH. induction l as [|t l IHl]; [done|].
          simpl in Hl. apply andb_false_iff in Hl as [Ht|Hl].
          * exists t. repeat split; [left|left|done].
          * destruct (IHl Hl) as (tok & _ & Htok & Hno). exists tok.
            repeat split; [left|by right|done].
        + destruct (IH Hls) as (line & tok & Hline & Htok & Hno).
          exists line, tok. repeat split; [by right|done|done]. }
    split.
    + split.
      * intros [cls Hcls]. rewrite H in Hcls. done.
      * intros Hall. destruct Hex as (line & tok & Hline & Htok & Hno).
        rewrite (Hall line tok Hline Htok) in Hno. done.
    + split; [|done]. intros _. split; [done|].
      destruct Hex as (line & tok & _ & _ & Hno). exists tok.
      by apply reader_split_seqid_err.
Qed.

(** C6: on a well-formed cluster file (every token has a ['|']),
    [read_mcl] returns a list with one element per line that is not empty
    once stripped, in the order of the file; each element lists, for the
    whitespace-separated tokens of its line in order, the second-to-last
    ['|'] segment of the token, which is what the reader's [split_seqid]
    returns.  The writer's [split_seqid] instead returns the last ['|']
    segment without its suffix from the first ['.'] on. *)
Theorem read_mcl_clusters (content : string) :
  all_tokens_have_bar content = true →
  ∃ clusters,
    Reader.read_mcl content = Ok clusters ∧
    length clusters = length (nonempty_lines content) ∧
    Forall2 (fun line cluster =>
               Forall2 penultimate_segment (Py.split_ws (Py.strip line)) cluster)
            (nonempty_lines content) clusters ∧
    (∀ tok id, penultimate_segment tok id → Reader.split_seqid tok = Ok id) ∧
    (∀ s, ∃ pre seg r,
        Py.split "|"%char s = pre ++ [seg] ∧
        Writer.split_seqid s = Ok r ∧
        contains "."%char r = false ∧
        (seg = r ∨ ∃ rest, seg = r +:+ "." +:+ rest)).
Proof.
  intros Hwf.
  pose proof (read_loop (Reader.token_lines (Py.readlines content)) []) as H.
  fold (all_tokens_have_bar content) in H. fold (Reader.read_mcl content) in H.
  rewrite Hwf in H. destruct H as (cls & Hok & HF).
  exists cls. split; [done|].
  rewrite token_lines_nonempty in HF.
  split; [|split; [|split]].
  - pose proof (Forall2_length _ _ _ HF) as HL. rewrite length_fmap in HL. by symmetry.
  - by apply (Forall2_fmap_l (fun l => Py.split_ws (Py.strip l))) in HF.
  - intros tok id (pre & lastseg & Hs). unfold Reader.split_seqid.
    rewrite Hs. apply index_penultimate.
  - intros s. destruct (writer_split_seqid_spec s) as (pre & seg & r & ? & ? & ? & ? & ?).
    by exists pre, seg, r.
Qed.

Lemma read_mcl_clusters_witness :
  all_tokens_have_bar example_cluster_file = true ∧
  ∃ clusters,
    Reader.read_mcl example_cluster_file = Ok clusters ∧
    length clusters = length (nonempty_lines example_cluster_file).
Proof.
  split; [reflexivity|].
  destruct (read_mcl_clusters example_cluster_file eq_refl) as (cls & H1 & H2 & _).
  by exists cls.
Defined.

(** ** The order of feature tuples *)

Ltac feature_cases :=
  repeat match goal with
    | |- context [String.eqb ?a ?b] => destruct (String.eqb_spec a b); simpl
    | |- context [Z.eqb ?a ?b] => destruct (Z.eqb_spec a b); simpl
    | |- context [Z.ltb ?a ?b] => destruct (Z.ltb_spec a b); simpl
    end.

Lemma string_ltb_asym (s t : string) : String.ltb s t = true → String.ltb t s = false.
Proof.
  unfold String.ltb. rewrite (String.compare_antisym s t).
  by destruct (String.compare t s).
Qed.

Lemma string_ltb_total (s t : string) :
  String.ltb s t = false → String.ltb t s = false → s = t.
Proof.
  unfold String.ltb. rewrite (String.compare_antisym s t).
  destruct (String.compare t s) eqn:H; try done.
  intros _ _. symmetry. by apply String.compare_eq_iff.
Qed.

Lemma feature_ltb_asym (x y : Feature) :
  Writer.feature_ltb x y = true → Writer.feature_ltb y x = false.
Proof.
  destruct x as [[[s1 b1] e1] d1], y as [[[s2 b2] e2] d2].
  unfold Writer.feature_ltb, ft_source, ft_start, ft_end, ft_strand. simpl.
  feature_cases; try (subst; done); try lia.
  apply string_ltb_asym.
Qed.

Lemma feature_ltb_total (x y : Feature) :
  Writer.feature_ltb x y = false → Writer.feature_ltb y x = false → x = y.
Proof.
  destruct x as [[[s1 b1] e1] d1], y as [[[s2 b2] e2] d2].
  unfold Writer.feature_ltb, ft_source, ft_start, ft_end, ft_strand. simpl.
  feature_cases; intros H1 H2; try discriminate; try lia;
    try (exfalso; pose proof (string_ltb_total _ _ H1 H2); congruence).
  all: try (repeat f_equal; try done; lia).
Qed.

Lemma feature_ltb_le (x y : Feature) :
  Writer.feature_ltb x y = true → feature_le x y.
Proof.
  destruct x as [[[s1 b1] e1] d1], y as [[[s2 b2] e2] d2].
  unfold Writer.feature_ltb, feature_le, ft_source, ft_start, ft_end, ft_strand. simpl.
  feature_cases; intros Hlt; try discriminate.
  all: try (left; unfold String.ltb in Hlt; by destruct (String.compare s1 s2)).
  all: right; split; [done|]; try (left; lia).
  all: right; split; [done|]; try (left; lia).
  all: right; split; [done|]; lia.
Qed.

Lemma feature_le_refl (x : Feature) : feature_le x x.
Proof. unfold feature_le. right. split; [done|]. right. split; [done|]. right. split; [done|]. lia. Qed.

(** [sorted] puts the two features in order whichever comes first. *)
Lemma sorted2_comm (x y : Feature) : Writer.sorted2 x y = Writer.sorted2 y x.
Proof.
  unfold Writer.sorted2.
  destruct (Writer.feature_ltb y x) eqn:Hyx, (Writer.feature_ltb x y) eqn:Hxy; try done.
  - by rewrite (feature_ltb_asym _ _ Hyx) in Hxy.
  - by rewrite (feature_ltb_total _ _ Hxy Hyx).
Qed.

Lemma sorted2_le (x y : Feature) :
  feature_le (Writer.sorted2 x y).1 (Writer.sorted2 x y).2.
Proof.
  unfold Writer.sorted2.
  destruct (Writer.feature_ltb y x) eqn:Hyx; simpl.
  - by apply feature_ltb_le.
  - destruct (Writer.feature_ltb x y) eqn:Hxy.
    + by apply feature_ltb_le.
    + rewrite (feature_ltb_total _ _ Hxy Hyx). apply feature_le_refl.
Qed.

Lemma sorted2_cases (x y : Feature) :
  Writer.sorted2 x y = (x, y) ∨ Writer.sorted2 x y = (y, x).
Proof. unfold Writer.sorted2. destruct (Writer.feature_ltb y x); auto. Qed.

(** ** Grouping *)

Lemma writer_split_seqid_total (s : string) : ∃ r, Writer.split_seqid s = Ok r.
Proof. destruct (writer_split_seqid_spec s) as (_ & _ & r & _ & H & _). by exists r. Qed.

Lemma entry_key_total (entry : Feature * Feature) : ∃ key, entry_key entry = Ok key.
Proof.
  unfold entry_key.
  destruct (writer_split_seqid_total (ft_source entry.1)) as [r1 ->].
  destruct (writer_split_seqid_total (ft_source entry.2)) as [r2 ->].
  simpl. by eauto.
Qed.

Lemma process_pair_resolved (features : gmap string Feature)
    (d : gmap string (gset (Feature * Feature))) (a b : string) (f1 f2 : Feature) (key : string) :
  features !! a = Some f1 → features !! b = Some f2 →
  entry_key (Writer.sorted2 f1 f2) = Ok key →
  Writer.process_pair features d (a, b)
  = Ok (Writer.add_entry key (Writer.sorted2 f1 f2) d).
Proof.
  intros Ha Hb Hkey. unfold Writer.process_pair, getitem. simpl.
  rewrite Ha, Hb. simpl. unfold entry_key in Hkey.
  destruct (Writer.sorted2 f1 f2) as [ft1 ft2]. simpl in *.
  destruct (Writer.split_seqid (ft_source ft1)) as [r1|]; [|done]. simpl in *.
  destruct (Writer.split_seqid (ft_source ft2)) as [r2|]; [|done]. simpl in *.
  by inversion Hkey.
Qed.

Lemma add_entry_idemp (key : string) (entry : Feature * Feature)
    (d : gmap string (gset (Feature * Feature))) :
  Writer.add_entry key entry (Writer.add_entry key entry d) = Writer.add_entry key entry d.
Proof.
  unfold Writer.add_entry. rewrite lookup_insert_eq, insert_insert_eq. simpl.
  by rewrite <- (assoc_L (∪)), (idemp_L (∪)).
Qed.

Lemma write_files_single (outdir key : string) (entry : Feature * Feature) :
  Writer.write_files outdir (Writer.add_entry key entry ∅)
  = [ {| Writer.path := Writer.crunch_path outdir key;
         Writer.lines := [Writer.crunch_line entry] |} ].
Proof.
  unfold Writer.write_files, Writer.add_entry.
  rewrite lookup_empty. simpl. rewrite (left_id_L ∅ (∪)).
  rewrite insert_empty, map_to_list_singleton. simpl.
  by rewrite elements_singleton.
Qed.

(** C3: when both members of a pair resolve, the two orders [(a, b)] and
    [(b, a)] give the same sorted entry, which is one of the two orders of
    the features and has its first feature before or equal to its second
    in the order by source name, then start, then end, then strand; both
    orders add this entry under the same key, processing both stores it
    once, and it is written as one line. *)
Theorem pair_order_independent (features : gmap string Feature)
    (d : gmap string (gset (Feature * Feature))) (a b : string) (f1 f2 : Feature) :
  features !! a = Some f1 → features !! b = Some f2 →
  ∃ ft1 ft2 key,
    Writer.sorted2 f1 f2 = (ft1, ft2) ∧
    Writer.sorted2 f2 f1 = (ft1, ft2) ∧
    ((ft1, ft2) = (f1, f2) ∨ (ft1, ft2) = (f2, f1)) ∧
    feature_le ft1 ft2 ∧
    Writer.process_pair features d (a, b) = Ok (Writer.add_entry key (ft1, ft2) d) ∧
    Writer.process_pair features d (b, a) = Ok (Writer.add_entry key (ft1, ft2) d) ∧
    for_each (Writer.process_pair features) d [(a, b); (b, a)]
      = Ok (Writer.add_entry key (ft1, ft2) d) ∧
    ∀ outdir,
      Writer.write_files outdir (Writer.add_entry key (ft1, ft2) ∅)
      = [ {| Writer.path := Writer.crunch_path outdir key;
             Writer.lines := [Writer.crunch_line (ft1, ft2)] |} ].
Proof.
  intros Ha Hb.
  destruct (entry_key_total (Writer.sorted2 f1 f2)) as [key Hkey].
  pose proof (sorted2_le f1 f2) as Hle.
  pose proof (sorted2_cases f1 f2) as Hcases.
  pose proof (process_pair_resolved features d a b f1 f2 key Ha Hb Hkey) as Hab.
  pose proof (λ d', process_pair_resolved features d' b a f2 f1 key Hb Ha) as Hba.
  rewrite <- (sorted2_comm f1 f2) in Hba. specialize (λ d', Hba d' Hkey).
  rewrite <- (sorted2_comm f1 f2).
  destruct (Writer.sorted2 f1 f2) as [ft1 ft2].
  exists ft1, ft2, key. repeat split; try done.
  - simpl. rewrite Hab. simpl. rewrite Hba. simpl. by rewrite add_entry_idemp.
  - intros outdir. apply write_files_single.
Qed.

(** ** Pairs of members of a cluster *)

Lemma combinations2_double_length {A : Type} (l : list A) :
  (2 * length (Writer.combinations2 l) = length l * (length l - 1))%nat.
Proof.
  induction l as [|x l IH]; [done|].
  cbn [Writer.combinations2]. rewrite length_app, length_fmap. simpl length.
  destruct (length l); [simpl in *; lia|]. nia.
Qed.

Lemma combinations2_length {A : Type} (l : list A) :
  length (Writer.combinations2 l) = (length l * (length l - 1) / 2)%nat.
Proof.
  rewrite <- combinations2_double_length.
  by rewrite Nat.mul_comm, Nat.div_mul.
Qed.

Lemma elem_of_combinations2 {A : Type} (l : list A) (x y : A) :
  (x, y) ∈ Writer.combinations2 l ↔
  ∃ i j : nat, (i < j)%nat ∧ l !! i = Some x ∧ l !! j = Some y.
Proof.
  induction l as [|z l IH]; cbn [Writer.combinations2].
  - split; [by intros ?%elem_of_nil|]. by intros (i & j & _ & ? & _).
  - rewrite elem_of_app, list_elem_of_fmap, IH. split.
    + intros [(y' & [= -> ->] & Hy)|(i & j & Hij & Hi & Hj)].
      * apply list_elem_of_lookup in Hy as [k Hk].
        exists 0%nat, (S k). repeat split; [lia|done].
      * exists (S i), (S j). repeat split; [lia|done|done].
    + intros (i & j & Hij & Hi & Hj).
      destruct j as [|j]; [lia|]. simpl in Hj.
      destruct i as [|i]; simpl in Hi.
      * left. exists y. split; [congruence|]. apply list_elem_of_lookup. by eauto.
      * right. exists i, j. repeat split; [lia|done|done].
Qed.

(** ** The grouping loop *)

Lemma for_each_app {A S : Type} (body : S → A → result S) (s : S) (l1 l2 : list A) :
  for_each body s (l1 ++ l2) = (s' ← for_each body s l1 ; for_each body s' l2).
Proof.
  revert s. induction l1 as [|x l1 IH]; intros s; simpl; [done|].
  destruct (body s x) as [s'|e]; simpl; [apply IH|done].
Qed.

Lemma group_pairs_flat (clusters : list (list string)) (features : gmap string Feature) :
  Writer.group_pairs clusters features
  = for_each (Writer.process_pair features) ∅ (all_pairs clusters).
Proof.
  unfold Writer.group_pairs, all_pairs. generalize (∅ : gmap string (gset (Feature * Feature))).
  induction clusters as [|c cs IH]; intros d; simpl; [done|].
  rewrite for_each_app.
  destruct (for_each (Writer.process_pair features) d (Writer.combinations2 c)) as [d'|e];
    simpl; [apply IH|done].
Qed.

Lemma process_pair_cases (features : gmap string Feature)
    (d : gmap string (gset (Feature * Feature))) (a b : string) :
  match features !! a, features !! b with
  | Some f1, Some f2 =>
      ∃ key, entry_key (Writer.sorted2 f1 f2) = Ok key ∧
             Writer.process_pair features d (a, b)
             = Ok (Writer.add_entry key (Writer.sorted2 f1 f2) d)
  | Some _, None => Writer.process_pair features d (a, b) = Err (KeyError b)
  | None, _ => Writer.process_pair features d (a, b) = Err (KeyError a)
  end.
Proof.
  destruct (features !! a) as [f1|] eqn:Ha.
  - destruct (features !! b) as [f2|] eqn:Hb.
    + destruct (entry_key_total (Writer.sorted2 f1 f2)) as [key Hkey].
      exists key. split; [done|]. by apply process_pair_resolved.
    + unfold Writer.process_pair, getitem. simpl. by rewrite Ha, Hb.
  - unfold Writer.process_pair, getitem. simpl. by rewrite Ha.
Qed.

Lemma stored_add_entry (d : gmap string (gset (Feature * Feature)))
    (key key' : string) (entry entry' : Feature * Feature) :
  stored (Writer.add_entry key entry d) key' entry' ↔
  stored d key' entry' ∨ (key' = key ∧ entry' = entry).
Proof.
  unfold stored, Writer.add_entry. destruct (decide (key' = key)) as [->|Hne].
  - rewrite lookup_insert_eq. split.
    + intros (v & [= <-] & [Hin| ->%elem_of_singleton]%elem_of_union); [|by right].
      left. destruct (d !! key) as [v|]; simpl in Hin; [by eauto|].
      by apply not_elem_of_empty in Hin.
    + intros [(v & Hv & Hin)|[_ ->]]; eexists; (split; [done|]).
      * rewrite Hv. simpl. apply elem_of_union. by left.
      * apply elem_of_union. right. by apply elem_of_singleton.
  - rewrite lookup_insert_ne by done. split; [by left|]. by intros [?|[? _]].
Qed.

(** The loop either stores what every pair contributes, or stops at the
    first member that is not a key of [features]. *)
Lemma for_each_pairs (features : gmap string Feature) (pairs : list (string * string))
    (d : gmap string (gset (Feature * Feature))) :
  (∃ d', for_each (Writer.process_pair features) d pairs = Ok d' ∧
         (∀ p, p ∈ pairs → is_Some (features !! p.1) ∧ is_Some (features !! p.2)) ∧
         (∀ key entry, stored d' key entry ↔
                       stored d key entry ∨ contributed features pairs key entry) ∧
         ((∀ key v, d !! key = Some v → v ≠ ∅) → ∀ key v, d' !! key = Some v → v ≠ ∅)) ∨
  (∃ p k, for_each (Writer.process_pair features) d pairs = Err (KeyError k) ∧
          p ∈ pairs ∧ (k = p.1 ∨ k = p.2) ∧ features !! k = None).
Proof.
  revert d. induction pairs as [|[a b] pairs IH]; intros d.
  - left. exists d. split; [done|]. split; [|split; [|done]].
    + by intros ? ?%elem_of_nil.
    + intros key entry. split; [by left|].
      intros [?|(? & ? & ? & ? & ?%elem_of_nil & _)]; done.
  - cbn [for_each]. pose proof (process_pair_cases features d a b) as Hp.
    destruct (features !! a) as [f1|] eqn:Ha; [destruct (features !! b) as [f2|] eqn:Hb|].
    + destruct Hp as (key & Hkey & ->). simpl.
      destruct (IH (Writer.add_entry key (Writer.sorted2 f1 f2) d))
        as [(d' & Hd' & Hres & Hsto & Hne)|(p & k & Herr & Hin & Hk & Hnone)].
      * left. exists d'. split; [done|]. split; [|split].
        -- intros p [->|Hin]%elem_of_cons; [simpl; by rewrite Ha, Hb|by apply Hres].
        -- intros key' entry'. rewrite Hsto, stored_add_entry. split.
           ++ intros [[?|[-> ->]]|(a' & b' & f1' & f2' & Hin & ?)]; [by left| |].
              ** right. exists a, b, f1, f2. repeat split; [left|done..].
              ** right. exists a', b', f1', f2'. split; [by right|done].
           ++ intros [?|(a' & b' & f1' & f2' & [[= -> ->]|Hin]%elem_of_cons & Ha' & Hb' & -> & Hk)];
                [by left; left| |].
              ** left. right. rewrite Ha in Ha'. rewrite Hb in Hb'.
                 injection Ha' as <-. injection Hb' as <-. split; [|done]. congruence.
              ** right. by exists a', b', f1', f2'.
        -- intros Hd. apply Hne. intros key' v. unfold Writer.add_entry.
           destruct (decide (key' = key)) as [->|Hneq].
           ++ rewrite lookup_insert_eq. intros [= <-] Hempty.
              assert (Writer.sorted2 f1 f2 ∈ (∅ : gset (Feature * Feature))) as Hin
                by (rewrite <- Hempty; apply elem_of_union; right; by apply elem_of_singleton).
              by apply not_elem_of_empty in Hin.
           ++ rewrite lookup_insert_ne by done. apply Hd.
      * right. exists p, k. split; [done|]. split; [by right|done].
    + right. exists (a, b), b. rewrite Hp. simpl. repeat split; [left|by right|done].
    + right. exists (a, b), a. rewrite Hp. simpl. repeat split; [left|by left|done].
Qed.

Lemma elem_of_all_pairs (clusters : list (list string)) (a b : string) :
  (a, b) ∈ all_pairs clusters ↔
  ∃ c (i j : nat), c ∈ clusters ∧ (i < j)%nat ∧ c !! i = Some a ∧ c !! j = Some b.
Proof.
  unfold all_pairs. rewrite list_elem_of_bind. split.
  - intros (c & (i & j & ? & ? & ?)%elem_of_combinations2 & Hc). by exists c, i, j.
  - intros (c & i & j & Hc & ? & ? & ?). exists c. split; [|done].
    apply elem_of_combinations2. by exists i, j.
Qed.

(** Every member of a cluster of two or more is in one of its pairs. *)
Lemma member_in_pair (clusters : list (list string)) (c : list string) (m : string) :
  c ∈ clusters → (2 ≤ length c)%nat → m ∈ c →
  ∃ p, p ∈ all_pairs clusters ∧ (m = p.1 ∨ m = p.2).
Proof.
  intros Hc Hlen [i Hi]%list_elem_of_lookup.
  destruct i as [|i].
  - destruct (lookup_lt_is_Some_2 c 1 ltac:(lia)) as [x Hx].
    exists (m, x). split; [|by left].
    apply elem_of_all_pairs. exists c, 0%nat, 1%nat. repeat split; [done|lia|done|done].
  - destruct (lookup_lt_is_Some_2 c 0 ltac:(lia)) as [x Hx].
    exists (x, m). split; [|by right].
    apply elem_of_all_pairs. exists c, 0%nat, (S i). repeat split; [done|lia|done|done].
Qed.

Lemma pair_in_cluster (clusters : list (list string)) (p : string * string) (k : string) :
  p ∈ all_pairs clusters → k = p.1 ∨ k = p.2 →
  ∃ c, c ∈ clusters ∧ (2 ≤ length c)%nat ∧ k ∈ c.
Proof.
  destruct p as [a b]. intros (c & i & j & Hc & Hij & Hi & Hj)%elem_of_all_pairs Hk.
  exists c. split; [done|].
  pose proof (lookup_lt_Some _ _ _ Hj). split; [lia|].
  apply list_elem_of_lookup. simpl in Hk. destruct Hk as [-> | ->]; by eauto.
Qed.

(** What the grouping loop of [write_crunch] returns. *)
Lemma group_pairs_result (clusters : list (list string)) (features : gmap string Feature) :
  (∃ d, Writer.group_pairs clusters features = Ok d ∧
        (∀ c m, c ∈ clusters → (2 ≤ length c)%nat → m ∈ c → is_Some (features !! m)) ∧
        (∀ key entry, stored d key entry ↔
                      contributed features (all_pairs clusters) key entry) ∧
        (∀ key v, d !! key = Some v → v ≠ ∅)) ∨
  (∃ c m, Writer.group_pairs clusters features = Err (KeyError m) ∧
          c ∈ clusters ∧ (2 ≤ length c)%nat ∧ m ∈ c ∧ features !! m = None).
Proof.
  rewrite group_pairs_flat.
  destruct (for_each_pairs features (all_pairs clusters) ∅)
    as [(d & Hd & Hres & Hsto & Hne)|(p & k & Herr & Hp & Hk & Hnone)].
  - left. exists d. split; [done|]. split; [|split].
    + intros c m Hc Hlen Hm.
      destruct (member_in_pair clusters c m Hc Hlen Hm) as (p & Hp & [-> | ->]);
        by apply (Hres p Hp).
    + intros key entry. rewrite Hsto. split; [|by right].
      intros [(v & Hv & _)|?]; [|done]. by rewrite lookup_empty in Hv.
    + apply Hne. intros key v Hv. by rewrite lookup_empty in Hv.
  - right. destruct (pair_in_cluster clusters p k Hp Hk) as (c & Hc & Hlen & Hkc).
    by exists c, k.
Qed.

(** ** The writing loop *)

Lemma append_assoc (s t u : string) : (s +:+ t) +:+ u = s +:+ t +:+ u.
Proof.
  induction s as [|a s IH]; [done|].
  change (String a ((s +:+ t) +:+ u) = String a (s +:+ t +:+ u)). by rewrite IH.
Qed.

Lemma elem_of_write_files (outdir : string)
    (d : gmap string (gset (Feature * Feature))) (f : Writer.crunch_file) :
  f ∈ Writer.write_files outdir d ↔
  ∃ key v, d !! key = Some v ∧
           f = {| Writer.path := Writer.crunch_path outdir key;
                  Writer.lines := Writer.crunch_line <$> elements v |}.
Proof.
  unfold Writer.write_files. rewrite list_elem_of_fmap. split.
  - intros ([key v] & -> & Hkv%elem_of_map_to_list). by exists key, v.
  - intros (key & v & Hkv & ->). exists (key, v). split; [done|].
    by apply elem_of_map_to_list.
Qed.

Lemma crunch_columns_code (ft : Feature) :
  (Writer.crunch_start ft, Writer.crunch_end ft) = crunch_columns ft.
Proof.
  unfold Writer.crunch_start, Writer.crunch_end, crunch_columns.
  case_decide as H; destruct (Z.ltb_spec (ft_strand ft) 0); done || lia.
Qed.

(** C5: [write_crunch] returns exactly when every member of every cluster
    of two or more members is a key of the feature mapping; when some
    such member is not, it raises [KeyError] for a member that is not,
    and nothing is written. *)
Theorem write_crunch_key_error (clusters : list (list string))
    (features : gmap string Feature) (outdir : string) :
  ((∃ files, Writer.write_crunch clusters features outdir = Ok files) ↔
   (∀ c m, c ∈ clusters → (2 ≤ length c)%nat → m ∈ c → is_Some (features !! m))) ∧
  ((∃ c m, c ∈ clusters ∧ (2 ≤ length c)%nat ∧ m ∈ c ∧ features !! m = None) ↔
   (∃ c k, Writer.write_crunch clusters features outdir = Err (KeyError k) ∧
           c ∈ clusters ∧ (2 ≤ length c)%nat ∧ k ∈ c ∧ features !! k = None)).
Proof.
  unfold Writer.write_crunch.
  destruct (group_pairs_result clusters features)
    as [(d & -> & Hres & _)|(c & k & -> & Hc & Hlen & Hk & Hnone)]; simpl.
  - split.
    + split; [done|]. intros _. by eauto.
    + split; [|by intros (? & ? & ? & _)].
      intros (c & m & Hc & Hlen & Hm & Hnone).
      destruct (Hres c m Hc Hlen Hm) as [x Hx]. congruence.
  - split.
    + split; [by intros [? ?]|]. intros Hall.
      destruct (Hall c k Hc Hlen Hk) as [x Hx]. congruence.
    + split; [|intros _; by exists c, k]. intros _. by exists c, k.
Qed.

(** C10: two members of a cluster, at different positions, whose features
    have the same source are stored as a pair under the key [X_vs_X], with
    [X] the short name of the source, and their line is written to the
    file [X_vs_X.crunch] of the output directory; and every file written
    has at least one line. *)
Theorem intra_organism_pairs :
  (∀ (clusters : list (list string)) (features : gmap string Feature)
     (outdir : string) (files : list Writer.crunch_file)
     (c : list string) (i j : nat) (a b : string) (fa fb : Feature) (X : string),
      Writer.write_crunch clusters features outdir = Ok files →
      c ∈ clusters → c !! i = Some a → c !! j = Some b → i ≠ j →
      features !! a = Some fa → features !! b = Some fb →
      ft_source fa = ft_source fb →
      Writer.split_seqid (ft_source fa) = Ok X →
      ∃ f, f ∈ files ∧
           Writer.path f = Py.path_join outdir (X +:+ "_vs_" +:+ X +:+ ".crunch") ∧
           Writer.crunch_line (Writer.sorted2 fa fb) ∈ Writer.lines f) ∧
  (∀ (clusters : list (list string)) (features : gmap string Feature)
     (outdir : string) (files : list Writer.crunch_file) (f : Writer.crunch_file),
      Writer.write_crunch clusters features outdir = Ok files →
      f ∈ files → Writer.lines f ≠ []).
Proof.
  split.
  - intros clusters features outdir files c i j a b fa fb X Hw Hc Hi Hj Hij Ha Hb Hsrc HX.
    unfold Writer.write_crunch in Hw.
    destruct (group_pairs_result clusters features)
      as [(d & Hd & _ & Hsto & _)|(? & ? & Herr & _)]; rewrite ?Herr in Hw; [|done].
    rewrite Hd in Hw. simpl in Hw. injection Hw as <-.
    assert (entry_key (Writer.sorted2 fa fb) = Ok (Writer.group_key X X)) as Hkey.
    { unfold entry_key.
      destruct (sorted2_cases fa fb) as [-> | ->]; simpl;
        rewrite <- ?Hsrc, HX; simpl; by rewrite ?HX. }
    assert (stored d (Writer.group_key X X) (Writer.sorted2 fa fb)) as (v & Hv & Hin).
    { apply Hsto. destruct (decide (i < j)%nat).
      - exists a, b, fa, fb. repeat split; try done.
        apply elem_of_all_pairs. by exists c, i, j.
      - exists b, a, fb, fa. rewrite <- (sorted2_comm fa fb). repeat split; try done.
        apply elem_of_all_pairs. exists c, j, i. repeat split; [done|lia|done|done]. }
    eexists. split; [apply elem_of_write_files; by exists (Writer.group_key X X), v|].
    simpl. split.
    + unfold Writer.crunch_path, Writer.group_key. by rewrite !append_assoc.
    + apply list_elem_of_fmap_2. by apply elem_of_elements.
  - intros clusters features outdir files f Hw Hf.
    unfold Writer.write_crunch in Hw.
    destruct (group_pairs_result clusters features)
      as [(d & Hd & _ & _ & Hne)|(? & ? & Herr & _)]; rewrite ?Herr in Hw; [|done].
    rewrite Hd in Hw. simpl in Hw. injection Hw as <-.
    apply elem_of_write_files in Hf as (key & v & Hv & ->). simpl.
    intros Hnil. apply fmap_nil_inv in Hnil.
    apply (Hne key v Hv). apply leibniz_equiv. by apply elements_empty_iff.
Qed.

(** C2: the files written are those of the groups of the comparison map,
    with one line per stored pair, and every line written is the line of
    a stored pair; the line of a pair is the eight fields [100], [100],
    start, end and source of the first feature, start, end and source of
    the second, joined by single spaces and ended by a newline, where
    the start and end fields of a feature of negative strand are its end
    and its start: strand -1 with start 5 and end 20 is written [20 5]. *)
Theorem crunch_line_format :
  (∀ (clusters : list (list string)) (features : gmap string Feature)
     (outdir : string) (files : list Writer.crunch_file),
      Writer.write_crunch clusters features outdir = Ok files →
      ∃ pairs_dict,
        Writer.group_pairs clusters features = Ok pairs_dict ∧
        (∀ key v, pairs_dict !! key = Some v →
           ∃ f, f ∈ files ∧
                Writer.path f = Writer.crunch_path outdir key ∧
                length (Writer.lines f) = size v ∧
                ∀ entry, entry ∈ v → Writer.crunch_line entry ∈ Writer.lines f) ∧
        (∀ f line, f ∈ files → line ∈ Writer.lines f →
           ∃ key v entry, pairs_dict !! key = Some v ∧ entry ∈ v ∧
                          Writer.path f = Writer.crunch_path outdir key ∧
                          line = Writer.crunch_line entry)) ∧
  (∀ ft1 ft2 : Feature,
      Writer.crunch_line (ft1, ft2)
      = Py.join " " ["100"; "100";
                     (crunch_columns ft1).1; (crunch_columns ft1).2; ft_source ft1;
                     (crunch_columns ft2).1; (crunch_columns ft2).2; ft_source ft2]
        +:+ nl ∧
      Writer.crunch_line (ft1, ft2)
      = "100 100 " +:+ (crunch_columns ft1).1 +:+ " " +:+ (crunch_columns ft1).2 +:+ " "
        +:+ ft_source ft1 +:+ " " +:+ (crunch_columns ft2).1 +:+ " "
        +:+ (crunch_columns ft2).2 +:+ " " +:+ ft_source ft2 +:+ nl) ∧
  (∀ (source : string) (ft2 : Feature),
      crunch_columns (source, 5, 20, -1) = ("20", "5") ∧
      crunch_columns (source, 5, 20, 1) = ("5", "20") ∧
      Writer.crunch_line ((source, 5, 20, -1), ft2)
      = "100 100 20 5 " +:+ source +:+ " " +:+ (crunch_columns ft2).1 +:+ " "
        +:+ (crunch_columns ft2).2 +:+ " " +:+ ft_source ft2 +:+ nl).
Proof.
  assert (∀ ft1 ft2 : Feature,
      Writer.crunch_line (ft1, ft2)
      = Py.join " " ["100"; "100";
                     (crunch_columns ft1).1; (crunch_columns ft1).2; ft_source ft1;
                     (crunch_columns ft2).1; (crunch_columns ft2).2; ft_source ft2]
        +:+ nl) as Hline.
  { intros ft1 ft2. unfold Writer.crunch_line. simpl fst. simpl snd.
    by rewrite <- (crunch_columns_code ft1), <- (crunch_columns_code ft2). }
  assert (∀ ft1 ft2 : Feature,
      Writer.crunch_line (ft1, ft2)
      = "100 100 " +:+ (crunch_columns ft1).1 +:+ " " +:+ (crunch_columns ft1).2 +:+ " "
        +:+ ft_source ft1 +:+ " " +:+ (crunch_columns ft2).1 +:+ " "
        +:+ (crunch_columns ft2).2 +:+ " " +:+ ft_source ft2 +:+ nl) as Hflat.
  { intros ft1 ft2. rewrite Hline. rewrite !join_cons2. cbn [Py.join].
    rewrite !append_assoc. reflexivity. }
  split; [|split].
  - intros clusters features outdir files Hw. unfold Writer.write_crunch in Hw.
    destruct (Writer.group_pairs clusters features) as [d|] eqn:Hd; [|done].
    simpl in Hw. injection Hw as <-. exists d. split; [done|]. split.
    + intros key v Hv. eexists. split; [apply elem_of_write_files; by exists key, v|].
      simpl. split; [done|]. split; [by rewrite length_fmap|].
      intros entry Hin. apply list_elem_of_fmap_2. by apply elem_of_elements.
    + intros f line (key & v & Hv & ->)%elem_of_write_files Hl. simpl in Hl.
      apply list_elem_of_fmap in Hl as (entry & -> & Hin%elem_of_elements).
      by exists key, v, entry.
  - intros ft1 ft2. split; [apply Hline|apply Hflat].
  - intros source ft2. split; [by vm_compute|]. split; [by vm_compute|].
    rewrite Hflat. reflexivity.
Qed.

(** The grouping loop on the scenario. *)
Lemma scenario_group_pairs :
  Writer.group_pairs [["id1"; "id2"]] scenario_features
  = Ok (Writer.add_entry "orgA_vs_orgB" (("orgA", 0, 10, 1), ("orgB", 5, 15, 1)) ∅).
Proof.
  unfold Writer.group_pairs. cbn [for_each Writer.combinations2 fmap list_fmap app].
  assert (scenario_features !! "id1" = Some ("orgA", 0, 10, 1)) as H1 by (by vm_compute).
  assert (scenario_features !! "id2" = Some ("orgB", 5, 15, 1)) as H2 by (by vm_compute).
  assert (entry_key (Writer.sorted2 ("orgA", 0, 10, 1) ("orgB", 5, 15, 1)) = Ok "orgA_vs_orgB")
    as Hkey by (by vm_compute).
  rewrite (process_pair_resolved scenario_features ∅ "id1" "id2" _ _ _ H1 H2 Hkey).
  replace (Writer.sorted2 ("orgA", 0, 10, 1) ("orgB", 5, 15, 1))
    with (("orgA", 0, 10, 1), ("orgB", 5, 15, 1)) by (by vm_compute).
  reflexivity.
Qed.

(** C1, as amended: for a cluster file that [read_mcl] reads as the
    clusters [(id1, id2)] and [(id3)], such as the file whose lines are
    [gi|1|ref|id1|<TAB>gi|2|ref|id2|] and [gi|3|ref|id3|], and the
    features [id1: (orgA, 0, 10, 1)] and [id2: (orgB, 5, 15, 1)], the
    cells of the notebook ([read_mcl], the singleton filter,
    [write_crunch]) write exactly one file, [orgA_vs_orgB.crunch] in the
    output directory, with the single line [100 100 0 10 orgA 5 15 orgB];
    the singleton filter keeps [(id1, id2)] only. *)
Theorem end_to_end_composite_ids (content : string) :
  Reader.read_mcl content = Ok [["id1"; "id2"]; ["id3"]] →
  drop_singletons [["id1"; "id2"]; ["id3"]] = [["id1"; "id2"]] ∧
  (∀ outdir,
      run_cells content scenario_features outdir
      = Ok [ {| Writer.path := Py.path_join outdir "orgA_vs_orgB.crunch";
                Writer.lines := ["100 100 0 10 orgA 5 15 orgB" +:+ nl] |} ] ∧
      Writer.write_crunch (drop_singletons [["id1"; "id2"]; ["id3"]])
        scenario_features outdir
      = run_cells content scenario_features outdir) ∧
  Py.path_join "data" "orgA_vs_orgB.crunch" = "data/orgA_vs_orgB.crunch".
Proof.
  intros Hread.
  assert (drop_singletons [["id1"; "id2"]; ["id3"]] = [["id1"; "id2"]]) as Hdrop
    by (by vm_compute).
  split; [done|]. split; [|by vm_compute].
  intros outdir. unfold run_cells. rewrite Hread. simpl. split; [|done].
  rewrite Hdrop. unfold Writer.write_crunch. rewrite scenario_group_pairs.
  simpl. rewrite write_files_single. by vm_compute.
Qed.

Lemma end_to_end_composite_ids_witness :
  Py.strip <$> nonempty_lines scenario_file_composite
  = ["gi|1|ref|id1|" +:+ tab +:+ "gi|2|ref|id2|"; "gi|3|ref|id3|"] ∧
  run_cells scenario_file_composite scenario_features "data"
  = Ok [ {| Writer.path := "data/orgA_vs_orgB.crunch";
            Writer.lines := ["100 100 0 10 orgA 5 15 orgB" +:+ nl] |} ].
Proof.
  split; [vm_compute; reflexivity|].
  destruct (end_to_end_composite_ids scenario_file_composite
              ltac:(vm_compute; reflexivity)) as (_ & H & _).
  exact (proj1 (H "data")).
Defined.

(** C1, as stated, fails: on the cluster file whose lines are
    [id1<TAB>id2] and [id3] the reader's [split_seqid] finds no ['|'],
    [read_mcl] raises [IndexError] and no file is written. *)
Lemma end_to_end_bare_ids_raise :
  Py.strip <$> nonempty_lines scenario_file = ["id1" +:+ tab +:+ "id2"; "id3"] ∧
  Reader.read_mcl scenario_file = Err IndexError ∧
  run_cells scenario_file scenario_features "data" = Err IndexError ∧
  ¬ ∃ files, run_cells scenario_file scenario_features "data" = Ok files.
Proof.
  assert (run_cells scenario_file scenario_features "data" = Err IndexError) as Hrun
    by (vm_compute; reflexivity).
  split; [vm_compute; reflexivity|]. split; [vm_compute; reflexivity|].
  split; [exact Hrun|]. intros [files Hfiles]. rewrite Hrun in Hfiles. discriminate.
Qed.

(** ** The annotation loader *)

Lemma store_all_app (d : gmap string Feature) (es1 es2 : list (string * Feature)) :
  store_all d (es1 ++ es2) = store_all (store_all d es1) es2.
Proof. apply foldl_app. Qed.

(** The value of a key is that of the last entry stored for it. *)
Lemma store_all_lookup (d : gmap string Feature) (es : list (string * Feature)) (pid : string) :
  store_all d es !! pid
  = match last (filter (fun e => e.1 = pid) es) with
    | Some e => Some e.2
    | None => d !! pid
    end.
Proof.
  induction es as [|e es IH] using rev_ind; [done|].
  rewrite store_all_app, filter_app. simpl.
  rewrite filter_cons, filter_nil. case_decide as He.
  - rewrite last_snoc, <- He. apply lookup_insert_eq.
  - rewrite app_nil_r, lookup_insert_ne by done. apply IH.
Qed.

Lemma record_name_source (record : Genbank.SeqRecord) (name : string) :
  source_name record = Some name → Genbank.record_name record = Ok name.
Proof.
  unfold source_name, Genbank.record_name, getitem.
  destruct (Genbank.annotations record !! "gi") as [gi|]; [|done].
  simpl. intros [= <-]. reflexivity.
Qed.

Lemma add_feature_entry (name : string) (d : gmap string Feature)
    (ft : Genbank.SeqFeature) (pid : string) :
  protein_id ft = Some pid →
  Genbank.add_feature name d ft
  = Ok (<[pid := (name, Genbank.location_start ft, Genbank.location_end ft,
                  Genbank.location_strand ft)]> d).
Proof.
  unfold protein_id, Genbank.add_feature, getitem.
  destruct (Genbank.qualifiers ft !! "protein_id") as [[|p q]|]; try done.
  simpl. intros [= ->]. reflexivity.
Qed.

Lemma add_features_entries (name : string) (fts : list Genbank.SeqFeature)
    (d : gmap string Feature) :
  Forall (fun ft => Genbank.is_CDS ft → is_Some (protein_id ft)) fts →
  for_each (Genbank.add_feature name) d (filter Genbank.is_CDS fts)
  = Ok (store_all d (feature_entries name fts)).
Proof.
  unfold feature_entries. revert d.
  induction fts as [|ft fts IH]; intros d Hpid; [done|].
  apply Forall_cons in Hpid as [Hft Hfts].
  rewrite filter_cons. case_decide as Hcds.
  - destruct (Hft Hcds) as [pid Hp].
    cbn [for_each omap list_omap]. rewrite (add_feature_entry _ _ _ _ Hp), Hp. simpl.
    by apply IH.
  - by apply IH.
Qed.

Lemma add_record_entries (record : Genbank.SeqRecord) (name : string)
    (d : gmap string Feature) :
  source_name record = Some name →
  Forall (fun ft => Genbank.is_CDS ft → is_Some (protein_id ft)) (Genbank.features record) →
  Genbank.add_record d record
  = Ok (store_all d (feature_entries name (Genbank.features record))).
Proof.
  intros Hname Hfts. unfold Genbank.add_record.
  rewrite (record_name_source _ _ Hname). simpl.
  by apply add_features_entries.
Qed.

Lemma add_records_entries (records : list Genbank.SeqRecord) (d : gmap string Feature) :
  annotated records →
  for_each Genbank.add_record d records = Ok (store_all d (entries records)).
Proof.
  revert d. induction records as [|r rs IH]; intros d Hann; [done|].
  apply Forall_cons in Hann as [[[name Hname] Hfts] Hann].
  cbn [for_each]. rewrite (add_record_entries r name d Hname Hfts). simpl.
  unfold entries. simpl. rewrite Hname, store_all_app.
  by apply IH.
Qed.

(** C7: when every record has a [gi] annotation and every CDS a protein
    identifier, [read_genbank] returns a dictionary in which a protein
    identifier is mapped to the tuple (source name, start, end, strand)
    of the last CDS with this identifier, in the order of the files and
    of the features in a file, where the source name is
    [gi|<gi>|ref|<id>] of the record of that CDS: an entry of a later
    file replaces the entry of an earlier one, and nothing else is
    stored. *)
Theorem read_genbank_last_wins (records : list Genbank.SeqRecord) :
  annotated records →
  ∃ ft_dict,
    Genbank.read_genbank records = Ok ft_dict ∧
    (∀ pid, ft_dict !! pid = snd <$> last (filter (fun e => e.1 = pid) (entries records))) ∧
    (∀ pre post pid v,
        entries records = pre ++ (pid, v) :: post → pid ∉ post.*1 →
        ft_dict !! pid = Some v) ∧
    (∀ pid v, ft_dict !! pid = Some v →
        ∃ record name ft,
          record ∈ records ∧ source_name record = Some name ∧
          ft ∈ Genbank.features record ∧ Genbank.is_CDS ft ∧
          protein_id ft = Some pid ∧
          v = (name, Genbank.location_start ft, Genbank.location_end ft,
               Genbank.location_strand ft)).
Proof.
  intros Hann. exists (store_all ∅ (entries records)).
  assert (∀ pid, store_all ∅ (entries records) !! pid
                 = snd <$> last (filter (fun e => e.1 = pid) (entries records))) as Hlook.
  { intros pid. rewrite store_all_lookup.
    destruct (last _); [done|]. apply lookup_empty. }
  split; [by apply add_records_entries|]. split; [done|]. split.
  - intros pre post pid v Hes Hpost. rewrite Hlook, Hes.
    rewrite filter_app, filter_cons. simpl. case_decide; [|done].
    assert (filter (λ e : string * Feature, e.1 = pid) post = []) as ->.
    { destruct (filter _ post) as [|e es] eqn:Hf; [done|]. exfalso.
      assert (e ∈ filter (λ e : string * Feature, e.1 = pid) post) as Hin
        by (rewrite Hf; left).
      apply list_elem_of_filter in Hin as [He Hin]. apply Hpost.
      apply list_elem_of_fmap. by exists e. }
    by rewrite last_snoc.
  - intros pid v. rewrite Hlook.
    destruct (last _) as [e|] eqn:Hlast; [|done]. simpl. intros [= <-].
    apply last_Some_elem_of in Hlast. apply list_elem_of_filter in Hlast as [He Hin].
    unfold entries in Hin. apply list_elem_of_bind in Hin as (r & Hin & Hr).
    destruct (source_name r) as [name|] eqn:Hname; [|by apply elem_of_nil in Hin].
    unfold feature_entries in Hin. apply list_elem_of_omap in Hin as (ft & Hft & Hsome).
    apply list_elem_of_filter in Hft as [Hcds Hft].
    destruct (protein_id ft) as [p|] eqn:Hp; [|done]. simpl in Hsome.
    injection Hsome as <-. simpl in He. subst p.
    by exists r, name, ft.
Qed.

Lemma read_genbank_last_wins_witness :
  ∃ ft_dict,
    Genbank.read_genbank example_records = Ok ft_dict ∧
    ft_dict !! "YP_1.1" = Some ("gi|2|ref|NC_2.1", 7, 90, -1).
Proof.
  assert (annotated example_records) as Hann
    by (apply (bool_decide_unpack _); vm_compute; exact I).
  destruct (read_genbank_last_wins example_records Hann) as (ft_dict & Hok & Hlook & _).
  exists ft_dict. split; [exact Hok|]. rewrite Hlook. reflexivity.
Defined.

(** ** Instances on the scenario *)

Lemma pair_order_independent_witness :
  Writer.process_pair scenario_features ∅ ("id1", "id2")
  = Writer.process_pair scenario_features ∅ ("id2", "id1").
Proof.
  destruct (pair_order_independent scenario_features ∅ "id1" "id2"
              ("orgA", 0, 10, 1) ("orgB", 5, 15, 1) eq_refl eq_refl)
    as (ft1 & ft2 & key & _ & _ & _ & _ & Hab & Hba & _).
  rewrite Hab, Hba. reflexivity.
Defined.

Lemma write_crunch_key_error_witness :
  ∃ c k, Writer.write_crunch [["id1"; "id2"; "id3"]] scenario_features "data"
         = Err (KeyError k) ∧
         c ∈ [["id1"; "id2"; "id3"]] ∧ (2 ≤ length c)%nat ∧ k ∈ c ∧
         scenario_features !! k = None.
Proof.
  apply (proj2 (write_crunch_key_error [["id1"; "id2"; "id3"]] scenario_features "data")).
  exists ["id1"; "id2"; "id3"], "id3".
  split; [left|]. split; [simpl; lia|]. split; [|reflexivity].
  right. right. left.
Defined.

Lemma intra_organism_pairs_witness :
  ∃ f, f ∈ [ {| Writer.path := "data/NC_1_vs_NC_1.crunch";
                Writer.lines := ["100 100 0 10 gi|1|ref|NC_1.1 30 20 gi|1|ref|NC_1.1" +:+ nl] |} ] ∧
       Writer.path f = Py.path_join "data" ("NC_1" +:+ "_vs_" +:+ "NC_1" +:+ ".crunch") ∧
       Writer.crunch_line
         (Writer.sorted2 ("gi|1|ref|NC_1.1", 20, 30, -1) ("gi|1|ref|NC_1.1", 0, 10, 1))
       ∈ Writer.lines f.
Proof.
  apply (proj1 intra_organism_pairs
           [["a"; "b"]]
           (<["a" := ("gi|1|ref|NC_1.1", 20, 30, -1)]>
              (<["b" := ("gi|1|ref|NC_1.1", 0, 10, 1)]> ∅))
           "data" _ ["a"; "b"] 0%nat 1%nat "a" "b"
           ("gi|1|ref|NC_1.1", 20, 30, -1) ("gi|1|ref|NC_1.1", 0, 10, 1) "NC_1").
  - vm_compute. reflexivity.
  - left.
  - reflexivity.
  - reflexivity.
  - lia.
  - reflexivity.
  - reflexivity.
  - reflexivity.
  - vm_compute. reflexivity.
Defined.

Lemma crunch_line_format_witness :
  ∃ pairs_dict,
    Writer.group_pairs [["id1"; "id2"]] scenario_features = Ok pairs_dict ∧
    ∀ f line,
      f ∈ [ {| Writer.path := "data/orgA_vs_orgB.crunch";
               Writer.lines := ["100 100 0 10 orgA 5 15 orgB" +:+ nl] |} ] →
      line ∈ Writer.lines f →
      ∃ key v entry, pairs_dict !! key = Some v ∧ entry ∈ v ∧
                     Writer.path f = Writer.crunch_path "data" key ∧
                     line = Writer.crunch_line entry.
Proof.
  destruct (proj1 crunch_line_format [["id1"; "id2"]] scenario_features "data"
              [ {| Writer.path := "data/orgA_vs_orgB.crunch";
                   Writer.lines := ["100 100 0 10 orgA 5 15 orgB" +:+ nl] |} ])
    as (pairs_dict & Hd & _ & Hlines).
  - vm_compute. reflexivity.
  - exists pairs_dict. split; [exact Hd|exact Hlines].
Defined.

(** * Further properties *)


(** ** The singleton filter and the writer *)

Lemma combinations2_short {A : Type} (c : list A) :
  (length c ≤ 1)%nat → Writer.combinations2 c = [].
Proof. destruct c as [|x [|y c]]; simpl; [done|done|lia]. Qed.

Lemma group_loop_drop_singletons (features : gmap string Feature)
    (clusters : list (list string)) (d : gmap string (gset (Feature * Feature))) :
  for_each (fun pairs_dict cluster =>
              for_each (Writer.process_pair features) pairs_dict
                       (Writer.combinations2 cluster))
           d (drop_singletons clusters)
  = for_each (fun pairs_dict cluster =>
                for_each (Writer.process_pair features) pairs_dict
                         (Writer.combinations2 cluster))
             d clusters.
Proof.
  unfold drop_singletons. revert d.
  induction clusters as [|c cs IH]; intros d; [done|].
  rewrite filter_cons. case_decide as Hc.
  - cbn [for_each]. destruct (for_each _ d (Writer.combinations2 c)); simpl; [apply IH|done].
  - cbn [for_each]. rewrite (combinations2_short c) by lia. simpl. apply IH.
Qed.

(** X1: the singleton filter does not change what [write_crunch] does:
    on the filtered list and on the full list of clusters it returns the
    same files or raises the same exception. *)
Theorem write_crunch_drop_singletons (clusters : list (list string))
    (features : gmap string Feature) (outdir : string) :
  Writer.write_crunch (drop_singletons clusters) features outdir
  = Writer.write_crunch clusters features outdir.
Proof.
  unfold Writer.write_crunch, Writer.group_pairs.
  by rewrite group_loop_drop_singletons.
Qed.

Lemma all_pairs_nil (clusters : list (list string)) :
  all_pairs clusters = [] ↔ Forall (fun c => (length c ≤ 1)%nat) clusters.
Proof.
  unfold all_pairs. induction clusters as [|c cs IH]; [done|].
  change ((c :: cs) ≫= Writer.combinations2)
    with (Writer.combinations2 c ++ (cs ≫= Writer.combinations2)).
  rewrite Forall_cons, <- IH. split.
  - intros [Hc Hcs]%app_eq_nil. split; [|done].
    destruct c as [|x [|y c]]; simpl in *; [lia|lia|done].
  - intros [Hc ->]. by rewrite combinations2_short.
Qed.

(** X2: [write_crunch] returns without writing any file exactly when no
    cluster has two members, whatever the feature mapping is. *)
Theorem write_crunch_no_file (clusters : list (list string))
    (features : gmap string Feature) (outdir : string) :
  Writer.write_crunch clusters features outdir = Ok [] ↔
  Forall (fun c => (length c ≤ 1)%nat) clusters.
Proof.
  rewrite <- all_pairs_nil. unfold Writer.write_crunch. split.
  - destruct (group_pairs_result clusters features)
      as [(d & -> & Hres & Hsto & _)|(? & ? & -> & _)]; [|done].
    simpl. intros [= Hnil]. apply fmap_nil_inv, map_to_list_empty_iff in Hnil. subst d.
    destruct (all_pairs clusters) as [|[a b] ps] eqn:Hps; [done|]. exfalso.
    rewrite <- Hps in Hsto.
    assert ((a, b) ∈ all_pairs clusters) as Hab by (rewrite Hps; left).
    destruct (pair_in_cluster clusters (a, b) a Hab (or_introl eq_refl))
      as (c & Hc & Hlen & Ha).
    destruct (pair_in_cluster clusters (a, b) b Hab (or_intror eq_refl))
      as (c' & Hc' & Hlen' & Hb).
    destruct (Hres c a Hc Hlen Ha) as [f1 Hf1], (Hres c' b Hc' Hlen' Hb) as [f2 Hf2].
    destruct (entry_key_total (Writer.sorted2 f1 f2)) as [key Hkey].
    assert (stored ∅ key (Writer.sorted2 f1 f2)) as (v & Hv & _).
    { apply Hsto. by exists a, b, f1, f2. }
    by rewrite lookup_empty in Hv.
  - intros Hnil. rewrite group_pairs_flat, Hnil. simpl.
    unfold Writer.write_files. by rewrite map_to_list_empty.
Qed.

(** X3: when [write_crunch] returns, a line is written to a path exactly
    when the line is that of the sorted features of two members at
    positions [i < j] of one cluster and the path is that of the key made
    of the short names of their two sources. *)
Theorem write_crunch_lines (clusters : list (list string))
    (features : gmap string Feature) (outdir : string) (files : list Writer.crunch_file) :
  Writer.write_crunch clusters features outdir = Ok files →
  ∀ p line,
    (∃ f, f ∈ files ∧ Writer.path f = p ∧ line ∈ Writer.lines f) ↔
    (∃ c (i j : nat) a b f1 f2 key,
        c ∈ clusters ∧ (i < j)%nat ∧ c !! i = Some a ∧ c !! j = Some b ∧
        features !! a = Some f1 ∧ features !! b = Some f2 ∧
        entry_key (Writer.sorted2 f1 f2) = Ok key ∧
        p = Writer.crunch_path outdir key ∧
        line = Writer.crunch_line (Writer.sorted2 f1 f2)).
Proof.
  unfold Writer.write_crunch.
  destruct (group_pairs_result clusters features)
    as [(d & -> & _ & Hsto & _)|(? & ? & -> & _)]; [|done].
  simpl. intros [= <-] p line. split.
  - intros (f & (key & v & Hv & ->)%elem_of_write_files & Hpath & Hline). simpl in *.
    apply list_elem_of_fmap in Hline as (entry & -> & Hin%elem_of_elements).
    assert (stored d key entry) as Hst by (by exists v).
    apply Hsto in Hst as (a & b & f1 & f2 & Hab & Ha & Hb & -> & Hkey).
    apply elem_of_all_pairs in Hab as (c & i & j & Hc & Hij & Hi & Hj).
    by exists c, i, j, a, b, f1, f2, key.
  - intros (c & i & j & a & b & f1 & f2 & key & Hc & Hij & Hi & Hj & Ha & Hb & Hkey & -> & ->).
    assert (stored d key (Writer.sorted2 f1 f2)) as (v & Hv & Hin).
    { apply Hsto. exists a, b, f1, f2. repeat split; try done.
      apply elem_of_all_pairs. by exists c, i, j. }
    eexists. split; [apply elem_of_write_files; by exists key, v|]. simpl.
    split; [done|]. apply list_elem_of_fmap_2. by apply elem_of_elements.
Qed.



(** ** One group for two sources *)

Lemma string_compare_refl (s : string) : String.compare s s = Eq.
Proof.
  pose proof (String.compare_antisym s s) as H.
  by destruct (String.compare s s).
Qed.

Lemma feature_le_sources (x y : Feature) :
  feature_le x y → String.compare (ft_source y) (ft_source x) ≠ Lt.
Proof.
  intros [Hlt|[Heq _]].
  - rewrite String.compare_antisym, Hlt. done.
  - rewrite Heq, string_compare_refl. done.
Qed.

Lemma entry_key_sources (e1 e2 : Feature * Feature) :
  ft_source e1.1 = ft_source e2.1 → ft_source e1.2 = ft_source e2.2 →
  entry_key e1 = entry_key e2.
Proof. unfold entry_key. by intros -> ->. Qed.

Lemma stored_sorted (clusters : list (list string)) (features : gmap string Feature)
    (d : gmap string (gset (Feature * Feature))) (key : string) (entry : Feature * Feature) :
  Writer.group_pairs clusters features = Ok d → stored d key entry →
  feature_le entry.1 entry.2 ∧ entry_key entry = Ok key.
Proof.
  intros Hd Hst.
  destruct (group_pairs_result clusters features)
    as [(d' & Hd' & _ & Hsto & _)|(? & ? & Herr & _)]; [|congruence].
  assert (d' = d) as -> by congruence.
  apply Hsto in Hst as (a & b & f1 & f2 & _ & _ & _ & -> & Hkey).
  split; [apply sorted2_le|done].
Qed.

(** X4: every stored pair has its features in order, so its first source
    name is not after its second; two stored pairs with the same two
    source names, in either order, are stored under the same key. *)
Theorem one_group_per_source_pair (clusters : list (list string))
    (features : gmap string Feature) (pairs_dict : gmap string (gset (Feature * Feature)))
    (key1 key2 : string) (entry1 entry2 : Feature * Feature) :
  Writer.group_pairs clusters features = Ok pairs_dict →
  stored pairs_dict key1 entry1 → stored pairs_dict key2 entry2 →
  (ft_source entry1.1 = ft_source entry2.1 ∧ ft_source entry1.2 = ft_source entry2.2) ∨
  (ft_source entry1.1 = ft_source entry2.2 ∧ ft_source entry1.2 = ft_source entry2.1) →
  key1 = key2 ∧
  feature_le entry1.1 entry1.2 ∧
  String.compare (ft_source entry1.2) (ft_source entry1.1) ≠ Lt.
Proof.
  intros Hd H1 H2 Hsrc.
  destruct (stored_sorted _ _ _ _ _ Hd H1) as [Hle1 Hk1].
  destruct (stored_sorted _ _ _ _ _ Hd H2) as [Hle2 Hk2].
  split; [|split; [done|by apply feature_le_sources]].
  assert (ft_source entry1.1 = ft_source entry2.1 ∧
          ft_source entry1.2 = ft_source entry2.2) as [Ha Hb].
  { destruct Hsrc as [?|[Ha Hb]]; [done|].
    pose proof (feature_le_sources _ _ Hle1) as Hn1.
    destruct Hle2 as [Hlt|[Heq _]].
    - rewrite <- Ha, <- Hb in Hlt. done.
    - split; congruence. }
  rewrite (entry_key_sources _ _ Ha Hb) in Hk1. congruence.
Qed.

(** ** The order of the clusters and of their members *)

Lemma combinations2_perm {A : Type} (c c' : list A) (a b : A) :
  c ≡ₚ c' → (a, b) ∈ Writer.combinations2 c →
  (a, b) ∈ Writer.combinations2 c' ∨ (b, a) ∈ Writer.combinations2 c'.
Proof.
  intros Hperm (i & j & Hij & Hi & Hj)%elem_of_combinations2.
  apply Permutation_inj in Hperm as (_ & f & Hinj & Hf).
  rewrite Hf in Hi, Hj.
  destruct (decide (f i < f j)%nat) as [Hlt|Hge].
  - left. apply elem_of_combinations2. by exists (f i), (f j).
  - right. apply elem_of_combinations2. exists (f j), (f i).
    repeat split; [|done|done].
    assert (f i ≠ f j) by (intros Heq; apply Hinj in Heq; lia). lia.
Qed.

Lemma contributed_reordered (features : gmap string Feature)
    (cs1 cs2 : list (list string)) (key : string) (entry : Feature * Feature) :
  (∀ c, c ∈ cs1 → ∃ c', c' ∈ cs2 ∧ c ≡ₚ c') →
  contributed features (all_pairs cs1) key entry →
  contributed features (all_pairs cs2) key entry.
Proof.
  intros Hsim (a & b & f1 & f2 & Hab & Ha & Hb & He & Hkey).
  apply list_elem_of_bind in Hab as (c & Hab & Hc).
  destruct (Hsim c Hc) as (c' & Hc' & Hperm).
  destruct (combinations2_perm c c' a b Hperm Hab) as [Hin|Hin].
  - exists a, b, f1, f2. repeat split; try done.
    apply list_elem_of_bind. by exists c'.
  - exists b, a, f2, f1. rewrite (sorted2_comm f2 f1). repeat split; try done.
    apply list_elem_of_bind. by exists c'.
Qed.

Lemma pairs_dict_ext (d1 d2 : gmap string (gset (Feature * Feature))) :
  (∀ key v, d1 !! key = Some v → v ≠ ∅) →
  (∀ key v, d2 !! key = Some v → v ≠ ∅) →
  (∀ key entry, stored d1 key entry ↔ stored d2 key entry) →
  d1 = d2.
Proof.
  intros Hne1 Hne2 Hst. apply map_eq. intros key.
  destruct (d1 !! key) as [v1|] eqn:H1, (d2 !! key) as [v2|] eqn:H2; [| | |done].
  - f_equal. apply set_eq. intros e. split; intros He.
    + destruct (proj1 (Hst key e)) as (v & Hv & Hin); [by exists v1|]. congruence.
    + destruct (proj2 (Hst key e)) as (v & Hv & Hin); [by exists v2|]. congruence.
  - exfalso. destruct (set_choose_L v1 (Hne1 key v1 H1)) as [e He].
    destruct (proj1 (Hst key e)) as (v & Hv & _); [by exists v1|]. congruence.
  - exfalso. destruct (set_choose_L v2 (Hne2 key v2 H2)) as [e He].
    destruct (proj2 (Hst key e)) as (v & Hv & _); [by exists v2|]. congruence.
Qed.

Lemma group_pairs_reordered (features : gmap string Feature)
    (cs1 cs2 : list (list string)) (d : gmap string (gset (Feature * Feature))) :
  (∀ c, c ∈ cs1 → ∃ c', c' ∈ cs2 ∧ c ≡ₚ c') →
  (∀ c', c' ∈ cs2 → ∃ c, c ∈ cs1 ∧ c' ≡ₚ c) →
  Writer.group_pairs cs1 features = Ok d →
  Writer.group_pairs cs2 features = Ok d.
Proof.
  intros H12 H21 Hd.
  destruct (group_pairs_result cs1 features)
    as [(d1 & Hd1 & Hres1 & Hsto1 & Hne1)|(? & ? & Herr & _)]; [|congruence].
  assert (d1 = d) as -> by congruence.
  destruct (group_pairs_result cs2 features)
    as [(d2 & Hd2 & _ & Hsto2 & Hne2)|(c' & m & _ & Hc' & Hlen & Hm & Hnone)].
  - rewrite Hd2. f_equal. apply pairs_dict_ext; [done|done|].
    intros key entry. rewrite Hsto1, Hsto2. split; by apply contributed_reordered.
  - exfalso. destruct (H21 c' Hc') as (c & Hc & Hperm).
    destruct (Hres1 c m Hc) as [x Hx]; [by rewrite <- (Permutation_length Hperm)| |congruence].
    by rewrite <- Hperm.
Qed.

(** X5: when [write_crunch] returns for a list of clusters, it returns
    for the same clusters in another order, each with its members in
    another order, with the same comparison map and the same lines in
    the same files. *)
Theorem write_crunch_order_irrelevant (clusters1 clusters clusters2 : list (list string))
    (features : gmap string Feature) (outdir : string) (files1 : list Writer.crunch_file) :
  clusters1 ≡ₚ clusters → Forall2 (≡ₚ) clusters clusters2 →
  Writer.write_crunch clusters1 features outdir = Ok files1 →
  Writer.group_pairs clusters2 features = Writer.group_pairs clusters1 features ∧
  ∃ files2,
    Writer.write_crunch clusters2 features outdir = Ok files2 ∧
    ∀ p line,
      (∃ f, f ∈ files1 ∧ Writer.path f = p ∧ line ∈ Writer.lines f) ↔
      (∃ f, f ∈ files2 ∧ Writer.path f = p ∧ line ∈ Writer.lines f).
Proof.
  intros Hperm HF Hw. unfold Writer.write_crunch in *.
  destruct (Writer.group_pairs clusters1 features) as [d|] eqn:Hd; [|done].
  assert (Writer.group_pairs clusters2 features = Ok d) as Hd2.
  { apply (group_pairs_reordered features clusters1); [| |done].
    - intros c Hc. rewrite Hperm in Hc.
      apply list_elem_of_lookup in Hc as [i Hi].
      destruct (Forall2_lookup_l _ _ _ _ _ HF Hi) as (c' & Hi' & Hcc').
      exists c'. split; [|done]. apply list_elem_of_lookup. by exists i.
    - intros c' [i Hi']%list_elem_of_lookup.
      destruct (Forall2_lookup_r _ _ _ _ _ HF Hi') as (c & Hi & Hcc').
      exists c. split; [|done]. rewrite Hperm. apply list_elem_of_lookup. by exists i. }
  split; [done|]. rewrite Hd2. simpl in *. exists files1. by split.
Qed.


(** ** The files of the groups *)

Lemma string_length_append (s t : string) :
  String.length (s +:+ t) = (String.length s + String.length t)%nat.
Proof.
  induction s as [|a s IH]; [done|].
  change (S (String.length (s +:+ t)) = S (String.length s + String.length t)).
  by rewrite IH.
Qed.

Lemma append_inj_r (s1 s2 t : string) : s1 +:+ t = s2 +:+ t → s1 = s2.
Proof.
  revert s2. induction s1 as [|a s1 IH]; intros [|b s2] H.
  - done.
  - apply (f_equal String.length) in H. rewrite !string_length_append in H.
    simpl in H. lia.
  - apply (f_equal String.length) in H. rewrite !string_length_append in H.
    simpl in H. lia.
  - change (String a (s1 +:+ t) = String b (s2 +:+ t)) in H.
    injection H as -> H. f_equal. by apply IH.
Qed.

Lemma append_inj_l (s t1 t2 : string) : s +:+ t1 = s +:+ t2 → t1 = t2.
Proof.
  induction s as [|a s IH]; [done|].
  change (String a (s +:+ t1) = String a (s +:+ t2) → t1 = t2).
  intros [= H]. by apply IH.
Qed.

(** For a relative [b], [os.path.join(a, b)] is [b] after the directory
    prefix of [a]. *)
Lemma path_join_relative (a b : string) :
  starts_with_slash b = false → Py.path_join a b = dir_prefix a +:+ b.
Proof.
  intros Hb. unfold Py.path_join, dir_prefix.
  assert (match b with
          | String "/"%char _ => b
          | _ => match a with
                 | EmptyString => b
                 | _ => if String.eqb (substring (String.length a - 1) 1 a) "/"
                        then a +:+ b else a +:+ "/" +:+ b
                 end
          end
          = match a with
            | EmptyString => b
            | _ => if String.eqb (substring (String.length a - 1) 1 a) "/"
                   then a +:+ b else a +:+ "/" +:+ b
            end) as ->.
  { destruct b as [|x b]; [done|].
    destruct x as [[] [] [] [] [] [] [] []]; done. }
  destruct a as [|c a]; [done|].
  destruct (String.eqb _ _); [done|]. by rewrite append_assoc.
Qed.

Lemma starts_with_slash_append (s t : string) :
  starts_with_slash s = false → starts_with_slash t = false →
  starts_with_slash (s +:+ t) = false.
Proof. destruct s as [|a s]; [done|]. intros H _. exact H. Qed.

Lemma crunch_path_inj (outdir key1 key2 : string) :
  starts_with_slash key1 = false → starts_with_slash key2 = false →
  Writer.crunch_path outdir key1 = Writer.crunch_path outdir key2 → key1 = key2.
Proof.
  intros H1 H2. unfold Writer.crunch_path.
  rewrite !path_join_relative by (by apply starts_with_slash_append).
  intros H%append_inj_l. by apply append_inj_r in H.
Qed.

Lemma group_key_relative (r1 r2 : string) :
  starts_with_slash r1 = false → starts_with_slash (Writer.group_key r1 r2) = false.
Proof. intros H. unfold Writer.group_key. by apply starts_with_slash_append. Qed.

(** ** The files of the groups, by name *)





(** ** The number of lines *)

Lemma sum_list_with_cons {A : Type} (f : A → nat) (x : A) (l : list A) :
  sum_list_with f (x :: l) = (f x + sum_list_with f l)%nat.
Proof. reflexivity. Qed.

Lemma total_entries_add (key : string) (entry : Feature * Feature)
    (d : gmap string (gset (Feature * Feature))) :
  (total_entries (Writer.add_entry key entry d) ≤ S (total_entries d))%nat.
Proof.
  unfold total_entries, Writer.add_entry.
  assert (∀ v : gset (Feature * Feature), (size (v ∪ {[entry]}) ≤ S (size v))%nat) as Hsize.
  { intros v. destruct (decide (entry ∈ v)) as [Hin|Hnin].
    - rewrite (comm_L (∪)), (subseteq_union_1_L {[entry]} v); [lia|].
      by apply singleton_subseteq_l.
    - rewrite size_union by (by apply disjoint_singleton_r).
      rewrite size_singleton. lia. }
  destruct (d !! key) as [v|] eqn:Hv; simpl default.
  - rewrite <- insert_delete_eq.
    rewrite map_to_list_insert by apply lookup_delete_eq.
    rewrite <- (map_to_list_delete d key v Hv). rewrite !sum_list_with_cons.
    simpl snd. specialize (Hsize v). lia.
  - rewrite map_to_list_insert by done. rewrite sum_list_with_cons.
    simpl snd. specialize (Hsize ∅). rewrite size_empty in Hsize. lia.
Qed.

Lemma total_entries_loop (features : gmap string Feature) (pairs : list (string * string))
    (d d' : gmap string (gset (Feature * Feature))) :
  for_each (Writer.process_pair features) d pairs = Ok d' →
  (total_entries d' ≤ total_entries d + length pairs)%nat.
Proof.
  revert d. induction pairs as [|[a b] pairs IH]; intros d; simpl.
  - intros [= ->]. lia.
  - pose proof (process_pair_cases features d a b) as Hp.
    destruct (features !! a) as [f1|]; [destruct (features !! b) as [f2|]|].
    + destruct Hp as (key & _ & ->). simpl. intros H%IH.
      pose proof (total_entries_add key (Writer.sorted2 f1 f2) d). lia.
    + by rewrite Hp.
    + by rewrite Hp.
Qed.

Lemma all_pairs_length (clusters : list (list string)) :
  length (all_pairs clusters)
  = sum_list_with (fun c => (length c * (length c - 1) / 2)%nat) clusters.
Proof.
  unfold all_pairs. induction clusters as [|c cs IH]; [done|].
  change ((c :: cs) ≫= Writer.combinations2)
    with (Writer.combinations2 c ++ (cs ≫= Writer.combinations2)).
  rewrite length_app, IH, combinations2_length, sum_list_with_cons. done.
Qed.

Lemma total_lines_write_files (outdir : string) (d : gmap string (gset (Feature * Feature))) :
  total_lines (Writer.write_files outdir d) = total_entries d.
Proof.
  unfold total_lines, total_entries, Writer.write_files.
  induction (map_to_list d) as [|[k v] l IH]; [done|].
  rewrite fmap_cons, !sum_list_with_cons, IH. simpl. by rewrite length_fmap.
Qed.

(** X7: the number of lines written, over all the files, is at most the
    number of pairs of members, the sum of n * (n - 1) / 2 over the
    clusters. *)
Theorem write_crunch_line_count (clusters : list (list string))
    (features : gmap string Feature) (outdir : string) (files : list Writer.crunch_file) :
  Writer.write_crunch clusters features outdir = Ok files →
  (total_lines files
   ≤ sum_list_with (fun c => (length c * (length c - 1) / 2)%nat) clusters)%nat.
Proof.
  unfold Writer.write_crunch. rewrite group_pairs_flat.
  destruct (for_each _ _ _) as [d|] eqn:Hd; [|done].
  simpl. intros [= <-]. rewrite total_lines_write_files, <- all_pairs_length.
  apply total_entries_loop in Hd. unfold total_entries in Hd at 2.
  rewrite map_to_list_empty in Hd. simpl in Hd. lia.
Qed.


(** ** Stripping and tokens *)

Lemma lstrip_empty (s : string) : Py.lstrip s = EmptyString ↔ blank s = true.
Proof.
  induction s as [|a s IH]; [done|]. unfold blank in *. simpl.
  destruct (Py.isspace a); simpl; [done|]. split; done.
Qed.

Lemma blank_lstrip (s : string) : blank (Py.lstrip s) = blank s.
Proof.
  induction s as [|a s IH]; [done|]. unfold blank in *. simpl.
  destruct (Py.isspace a) eqn:Ha; simpl; [done|]. by rewrite Ha.
Qed.

Lemma rstrip_empty (s : string) : Py.rstrip s = EmptyString ↔ blank s = true.
Proof.
  induction s as [|a s IH]; [done|]. unfold blank in *. simpl.
  destruct (Py.rstrip s) as [|b r].
  - rewrite (proj1 IH eq_refl). destruct (Py.isspace a); simpl; split; done.
  - destruct (string_forallb Py.isspace s).
    + by pose proof (proj2 IH eq_refl).
    + rewrite andb_false_r. split; done.
Qed.

Lemma blank_rstrip (s : string) : blank (Py.rstrip s) = blank s.
Proof.
  induction s as [|a s IH]; [done|].
  pose proof (rstrip_empty s) as He. unfold blank in *. simpl.
  destruct (Py.rstrip s) as [|b r] eqn:Hr.
  - rewrite (proj1 He eq_refl), andb_true_r.
    destruct (Py.isspace a) eqn:Ha; simpl; [done|]. by rewrite Ha.
  - simpl. rewrite <- IH. done.
Qed.

Lemma strip_empty (s : string) : Py.strip s = EmptyString ↔ blank s = true.
Proof. unfold Py.strip. by rewrite rstrip_empty, blank_lstrip. Qed.

Lemma blank_strip (s : string) : blank (Py.strip s) = blank s.
Proof. unfold Py.strip. by rewrite blank_rstrip, blank_lstrip. Qed.

Lemma split_ws_from_nil (cur : list ascii) (s : string) :
  Py.split_ws_from cur s = [] ↔ cur = [] ∧ blank s = true.
Proof.
  revert cur. induction s as [|a s IH]; intros cur; unfold blank in *; simpl.
  - destruct cur; split; try done. by intros [? _].
  - destruct (Py.isspace a); simpl.
    + destruct cur; [by rewrite IH|]. split; [done|]. by intros [? _].
    + rewrite IH. split; [by intros [? _]|by intros [_ ?]].
Qed.

Lemma spaceless_of_list (l : list ascii) :
  Forall (fun a => Py.isspace a = false) l →
  spaceless (string_of_list_ascii l) = true.
Proof.
  unfold spaceless. induction 1 as [|a l Ha _ IH]; [done|].
  simpl. by rewrite Ha, IH.
Qed.

(** The tokens are not empty and have no whitespace. *)
Lemma split_ws_from_tokens (cur : list ascii) (s : string) :
  Forall (fun a => Py.isspace a = false) cur →
  Forall (fun tok => tok ≠ EmptyString ∧ spaceless tok = true) (Py.split_ws_from cur s).
Proof.
  assert (∀ cur : list ascii, cur ≠ [] →
            Forall (fun a => Py.isspace a = false) cur →
            string_of_list_ascii (rev cur) ≠ EmptyString ∧
            spaceless (string_of_list_ascii (rev cur)) = true) as Htok.
  { intros c Hne Hc. split.
    - destruct c as [|a c]; [done|]. simpl.
      destruct (rev c) as [|b r]; simpl; done.
    - apply spaceless_of_list. apply Forall_forall. intros a Ha.
      apply list_elem_of_In, in_rev, list_elem_of_In in Ha.
      by apply (proj1 (Forall_forall _ _) Hc). }
  revert cur. induction s as [|a s IH]; intros cur Hcur; simpl.
  - destruct cur as [|c cur]; [done|]. constructor; [by apply Htok|done].
  - destruct (Py.isspace a) eqn:Ha.
    + destruct cur as [|c cur]; [by apply IH|].
      constructor; [by apply Htok|by apply IH].
    + apply IH. by constructor.
Qed.

Lemma split_segments_forallb (P : ascii → bool) (c : ascii) (s : string) :
  string_forallb P s = true →
  Forall (fun x => string_forallb P x = true) (Py.split c s).
Proof.
  induction s as [|a s IH]; simpl; [by repeat constructor|].
  intros [Ha Hs]%andb_true_iff. specialize (IH Hs).
  destruct (Ascii.eqb a c); [by constructor|].
  destruct (Py.split c s) as [|h t]; [by repeat constructor; simpl; rewrite Ha|].
  apply Forall_cons in IH as [Hh Ht]. constructor; [|done].
  simpl. by rewrite Ha, Hh.
Qed.

(** X8: no cluster returned by [read_mcl] is empty, and no identifier
    in it has a ['|'] or a whitespace character. *)
Theorem read_mcl_clean (content : string) (clusters : list (list string)) :
  Reader.read_mcl content = Ok clusters →
  Forall (fun cluster =>
            cluster ≠ [] ∧
            Forall (fun id => contains "|"%char id = false ∧ spaceless id = true) cluster)
         clusters.
Proof.
  intros Hok.
  pose proof (read_loop (Reader.token_lines (Py.readlines content)) []) as H.
  fold (Reader.read_mcl content) in H. rewrite Hok in H.
  destruct (forallb _ _); [|done]. destruct H as (cls & [= ->] & HF).
  assert (Forall (fun line => line ≠ [] ∧
                    Forall (fun tok => spaceless tok = true) line)
                 (Reader.token_lines (Py.readlines content))) as Hlines.
  { unfold Reader.token_lines. apply Forall_fmap, Forall_forall.
    intros l [Hl _]%list_elem_of_filter. simpl. split.
    - unfold Py.split_ws. rewrite split_ws_from_nil, blank_strip.
      intros [_ Hb]. apply strip_empty in Hb. rewrite Hb in Hl. done.
    - eapply Forall_impl; [apply split_ws_from_tokens; constructor|]. by intros ? [_ ?]. }
  clear Hok. induction HF as [|line cl lines cls Hline HF IH]; [done|].
  apply Forall_cons in Hlines as [[Hne Htoks] Hlines].
  constructor; [|by apply IH]. split.
  - destruct Hline; done.
  - clear Hne. induction Hline as [|tok id toks ids (pre & lastseg & Hs) _ IH']; [done|].
    apply Forall_cons in Htoks as [Htok Htoks]. constructor; [|by apply IH'].
    assert (id ∈ Py.split "|"%char tok) as Hin.
    { rewrite Hs. apply elem_of_app. right. left. }
    split.
    + pose proof (split_segments_free "|"%char "|"%char tok (or_introl eq_refl)) as Hf.
      by apply (proj1 (Forall_forall _ _) Hf).
    + pose proof (split_segments_forallb _ "|"%char tok Htok) as Hf.
      by apply (proj1 (Forall_forall _ _) Hf).
Qed.

(** ** Identifiers with a final ['|'] *)

Lemma split_snoc (c : ascii) (s : string) :
  Py.split c (s +:+ String c EmptyString) = Py.split c s ++ [EmptyString].
Proof.
  induction s as [|a s IH].
  - simpl. by rewrite Ascii.eqb_refl.
  - change (String a s +:+ String c "") with (String a (s +:+ String c "")).
    simpl. rewrite IH. destruct (Ascii.eqb a c); [done|].
    destruct (split_cons c s) as (h & t & ->). done.
Qed.

(** X9: on an identifier ending with ['|'], the reader's [split_seqid]
    returns the last ['|'] segment of what precedes this ['|'] and the
    writer's returns the empty string. *)
Theorem split_seqid_final_bar (s : string) :
  ∃ pre seg,
    Py.split "|"%char s = pre ++ [seg] ∧
    Reader.split_seqid (s +:+ "|") = Ok seg ∧
    Writer.split_seqid (s +:+ "|") = Ok "".
Proof.
  destruct (split_cons "|"%char s) as (h & t & Hs).
  assert (h :: t ≠ []) as Hne by done.
  destruct (exists_last Hne) as (pre & seg & Hpre).
  exists pre, seg. split; [by rewrite Hs|].
  unfold Reader.split_seqid, Writer.split_seqid.
  change (s +:+ "|") with (s +:+ String "|"%char EmptyString).
  rewrite split_snoc, Hs, Hpre. split.
  - rewrite <- app_assoc. apply index_penultimate.
  - by rewrite index_last.
Qed.


(** ** Reading a file in two parts *)

Lemma split_ws_from_blank (cur : list ascii) (s : string) :
  blank s = true → Py.split_ws_from cur s = Py.split_ws_from cur EmptyString.
Proof.
  unfold blank. revert cur. induction s as [|a s IH]; intros cur; [done|]. simpl.
  intros [Ha Hs]%andb_true_iff. rewrite Ha.
  destruct cur as [|c cur]; rewrite (IH [] Hs); done.
Qed.

Lemma split_ws_from_lstrip (s : string) :
  Py.split_ws_from [] (Py.lstrip s) = Py.split_ws_from [] s.
Proof.
  induction s as [|a s IH]; [done|]. simpl.
  destruct (Py.isspace a) eqn:Ha; [done|]. simpl. by rewrite Ha.
Qed.

Lemma split_ws_from_rstrip (cur : list ascii) (s : string) :
  Py.split_ws_from cur (Py.rstrip s) = Py.split_ws_from cur s.
Proof.
  revert cur. induction s as [|a s IH]; intros cur; [done|].
  pose proof (rstrip_empty s) as He. simpl.
  destruct (Py.rstrip s) as [|b r] eqn:Hr.
  - pose proof (proj1 He eq_refl) as Hb.
    destruct (Py.isspace a) eqn:Ha; simpl; rewrite ?Ha.
    + rewrite (split_ws_from_blank [] s Hb). by destruct cur.
    + by rewrite (split_ws_from_blank (a :: cur) s Hb).
  - change (Py.split_ws_from cur (String a (String b r)))
      with (if Py.isspace a
            then match cur with
                 | [] => Py.split_ws_from [] (String b r)
                 | _ => string_of_list_ascii (rev cur) :: Py.split_ws_from [] (String b r)
                 end
            else Py.split_ws_from (a :: cur) (String b r)).
    by rewrite !IH.
Qed.

(** [l.strip().split()] is [l.split()]. *)
Lemma split_ws_strip (s : string) : Py.split_ws (Py.strip s) = Py.split_ws s.
Proof.
  unfold Py.split_ws, Py.strip. by rewrite split_ws_from_rstrip, split_ws_from_lstrip.
Qed.

Lemma blank_app (s t : string) : blank (s +:+ t) = blank s && blank t.
Proof.
  unfold blank. induction s as [|a s IH]; [done|].
  change (String a s +:+ t) with (String a (s +:+ t)). simpl.
  by rewrite IH, andb_assoc.
Qed.

Lemma split_ws_from_nl (cur : list ascii) (s : string) :
  Py.split_ws_from cur (s +:+ nl) = Py.split_ws_from cur s.
Proof.
  revert cur. induction s as [|a s IH]; intros cur.
  - by destruct cur.
  - change (String a s +:+ nl) with (String a (s +:+ nl)). simpl. by rewrite !IH.
Qed.

Lemma token_lines_cons (l : string) (ls : list string) :
  Reader.token_lines (l :: ls) = Reader.token_lines [l] ++ Reader.token_lines ls.
Proof.
  unfold Reader.token_lines. rewrite !filter_cons, filter_nil.
  by case_decide.
Qed.

Lemma token_lines_single (l : string) :
  Reader.token_lines [l] = if blank l then [] else [Py.split_ws l].
Proof.
  unfold Reader.token_lines. rewrite filter_cons, filter_nil.
  pose proof (strip_empty l) as He.
  destruct (blank l); case_decide as Hl.
  - rewrite (proj2 He eq_refl) in Hl. done.
  - done.
  - simpl. by rewrite split_ws_strip.
  - destruct (Py.strip l); [|done]. by pose proof (proj1 He eq_refl).
Qed.

Lemma string_of_list_snoc (l : list ascii) (a : ascii) :
  string_of_list_ascii (l ++ [a]) = string_of_list_ascii l +:+ String a EmptyString.
Proof.
  induction l as [|b l IH]; [done|]. simpl. rewrite IH. done.
Qed.

(** The line closed by a newline has the tokens of the line left open. *)
Lemma token_lines_emit (cur : list ascii) :
  Reader.token_lines [string_of_list_ascii (rev ("010"%char :: cur))]
  = Reader.token_lines (match cur with
                        | [] => []
                        | _ => [string_of_list_ascii (rev cur)]
                        end).
Proof.
  destruct cur as [|c cur]; [done|].
  change (rev ("010"%char :: c :: cur)) with (rev (c :: cur) ++ ["010"%char]).
  rewrite string_of_list_snoc. fold nl. rewrite !token_lines_single.
  rewrite blank_app. replace (blank nl) with true by done. rewrite andb_true_r.
  unfold Py.split_ws. by rewrite split_ws_from_nl.
Qed.

Lemma readlines_from_cons (cur : list ascii) (a : ascii) (s : string) :
  Py.readlines_from cur (String a s)
  = if Ascii.eqb a "010"%char
    then string_of_list_ascii (rev ("010"%char :: cur)) :: Py.readlines_from [] s
    else if Ascii.eqb a "013"%char
         then match s with
              | String b s'' =>
                  if Ascii.eqb b "010"%char
                  then string_of_list_ascii (rev ("010"%char :: cur))
                       :: Py.readlines_from [] s''
                  else string_of_list_ascii (rev ("010"%char :: cur))
                       :: Py.readlines_from [] s
              | EmptyString =>
                  string_of_list_ascii (rev ("010"%char :: cur)) :: Py.readlines_from [] s
              end
         else Py.readlines_from (a :: cur) s.
Proof. reflexivity. Qed.

Lemma readlines_from_nl (cur : list ascii) (t : string) :
  Py.readlines_from cur (String "010"%char t)
  = string_of_list_ascii (rev ("010"%char :: cur)) :: Py.readlines_from [] t.
Proof. reflexivity. Qed.

Lemma readlines_from_app (n : nat) (s t : string) (cur : list ascii) :
  (String.length s ≤ n)%nat →
  Reader.token_lines (Py.readlines_from cur (s +:+ nl +:+ t))
  = Reader.token_lines (Py.readlines_from cur s) ++ Reader.token_lines (Py.readlines t).
Proof.
  revert s cur. induction n as [|n IH]; intros s cur Hn.
  - destruct s; [|simpl in Hn; lia].
    change ("" +:+ nl +:+ t) with (String "010"%char t).
    rewrite readlines_from_nl, token_lines_cons, token_lines_emit. reflexivity.
  - destruct s as [|a s].
    + change ("" +:+ nl +:+ t) with (String "010"%char t).
      rewrite readlines_from_nl, token_lines_cons, token_lines_emit. reflexivity.
    + simpl in Hn. change (String a s +:+ nl +:+ t) with (String a (s +:+ nl +:+ t)).
      rewrite !readlines_from_cons.
      destruct (Ascii.eqb a "010"%char).
      * rewrite token_lines_cons, (token_lines_cons _ (Py.readlines_from [] s)).
        rewrite IH by lia. by rewrite app_assoc.
      * destruct (Ascii.eqb a "013"%char); [|apply IH; lia].
        destruct s as [|b s].
        -- change ("" +:+ nl +:+ t) with (String "010"%char t). cbv iota.
           change (Ascii.eqb "010"%char "010"%char) with true. cbv iota.
           rewrite (token_lines_cons _ (Py.readlines_from [] t)).
           rewrite (token_lines_cons _ (Py.readlines_from [] "")).
           change (Py.readlines_from [] "") with (@nil string).
           change (Reader.token_lines []) with (@nil (list string)).
           by rewrite app_nil_r.
        -- simpl in Hn.
           change (String b s +:+ nl +:+ t) with (String b (s +:+ nl +:+ t)). cbv iota.
           destruct (Ascii.eqb b "010"%char).
           ++ rewrite token_lines_cons, (token_lines_cons _ (Py.readlines_from [] s)).
              rewrite IH by lia. by rewrite app_assoc.
           ++ rewrite token_lines_cons,
                (token_lines_cons _ (Py.readlines_from [] (String b s))).
              change (String b (s +:+ nl +:+ t)) with (String b s +:+ nl +:+ t).
              rewrite IH by (simpl; lia). by rewrite app_assoc.
Qed.

Lemma map_result_app {A B : Type} (f : A → result B) (l1 l2 : list A) :
  map_result f (l1 ++ l2)
  = (y1 ← map_result f l1 ; y2 ← map_result f l2 ; Ok (y1 ++ y2)).
Proof.
  induction l1 as [|x l1 IH]; simpl.
  - by destruct (map_result f l2).
  - destruct (f x) as [y|e]; simpl; [|done]. rewrite IH.
    destruct (map_result f l1) as [y1|e]; simpl; [|done].
    by destruct (map_result f l2).
Qed.

Lemma read_loop_map (lines : list (list string)) (acc : list (list string)) :
  for_each (fun clusters line =>
              c ← map_result Reader.split_seqid line ; Ok (clusters ++ [c]))
           acc lines
  = (cls ← map_result (map_result Reader.split_seqid) lines ; Ok (acc ++ cls)).
Proof.
  revert acc. induction lines as [|line lines IH]; intros acc; simpl.
  - by rewrite app_nil_r.
  - destruct (map_result Reader.split_seqid line) as [c|e]; simpl; [|done].
    rewrite IH. destruct (map_result _ lines) as [cls|e]; simpl; [|done].
    by rewrite <- app_assoc.
Qed.

(** X13: reading a cluster file made of a first part, a newline and a
    second part gives the clusters of the first part followed by those
    of the second, or the first exception raised. *)
Theorem read_mcl_app (content1 content2 : string) :
  Reader.read_mcl (content1 +:+ nl +:+ content2)
  = (clusters1 ← Reader.read_mcl content1 ;
     clusters2 ← Reader.read_mcl content2 ;
     Ok (clusters1 ++ clusters2)).
Proof.
  unfold Reader.read_mcl. rewrite !read_loop_map. unfold Py.readlines.
  rewrite (readlines_from_app (String.length content1)) by done.
  rewrite map_result_app. fold (Py.readlines content1) (Py.readlines content2).
  destruct (map_result _ (Reader.token_lines (Py.readlines content1))) as [c1|e];
    simpl; [|done].
  by destruct (map_result _ (Reader.token_lines (Py.readlines content2))).
Qed.


(** ** Exceptions of the annotation loader *)

Lemma add_feature_cases (name : string) (d : gmap string Feature) (ft : Genbank.SeqFeature) :
  match Genbank.qualifiers ft !! "protein_id" with
  | None => Genbank.add_feature name d ft = Err (KeyError "protein_id")
  | Some [] => Genbank.add_feature name d ft = Err IndexError
  | Some (pid :: _) =>
      protein_id ft = Some pid ∧
      Genbank.add_feature name d ft
      = Ok (<[pid := (name, Genbank.location_start ft, Genbank.location_end ft,
                      Genbank.location_strand ft)]> d)
  end.
Proof.
  unfold Genbank.add_feature, getitem, protein_id.
  destruct (Genbank.qualifiers ft !! "protein_id") as [[|pid q]|]; simpl; try done.
Qed.

Lemma add_features_cases (name : string) (fts : list Genbank.SeqFeature)
    (d : gmap string Feature) :
  match for_each (Genbank.add_feature name) d (filter Genbank.is_CDS fts) with
  | Ok _ => Forall (fun ft => Genbank.is_CDS ft → is_Some (protein_id ft)) fts
  | Err e => feature_failure fts e
  end.
Proof.
  revert d. induction fts as [|ft fts IH]; intros d; [by constructor|].
  rewrite filter_cons. case_decide as Hcds.
  - cbn [for_each]. pose proof (add_feature_cases name d ft) as Hft.
    destruct (Genbank.qualifiers ft !! "protein_id") as [[|pid q]|] eqn:Hq.
    + rewrite Hft. simpl. exists ft. split; [left|]. split; [done|]. by right.
    + destruct Hft as [Hpid ->]. simpl. set (d0 := <[pid:=_]> d). specialize (IH d0).
      destruct (for_each _ _ _) as [d'|e].
      * constructor; [by eauto|done].
      * destruct IH as (ft' & Hin & H). exists ft'. split; [by right|done].
    + rewrite Hft. simpl. exists ft. split; [left|]. split; [done|]. by left.
  - specialize (IH d). destruct (for_each _ _ _) as [d'|e].
    + constructor; [done|done].
    + destruct IH as (ft' & Hin & H). exists ft'. split; [by right|done].
Qed.

Lemma add_record_cases (record : Genbank.SeqRecord) (d : gmap string Feature) :
  match Genbank.add_record d record with
  | Ok _ =>
      is_Some (source_name record) ∧
      Forall (fun ft => Genbank.is_CDS ft → is_Some (protein_id ft))
             (Genbank.features record)
  | Err e =>
      (e = KeyError "gi" ∧ Genbank.annotations record !! "gi" = None) ∨
      feature_failure (Genbank.features record) e
  end.
Proof.
  unfold Genbank.add_record, Genbank.record_name, getitem, source_name.
  destruct (Genbank.annotations record !! "gi") as [gi|] eqn:Hgi; simpl; [|by left].
  pose proof (add_features_cases (Py.join "|" ["gi"; gi; "ref"; Genbank.id record])
                (Genbank.features record) d) as Hfts.
  destruct (for_each _ d _) as [d'|e]; [|by right].
  split; [by eauto|done].
Qed.

Lemma add_records_cases (records : list Genbank.SeqRecord) (d : gmap string Feature) :
  match for_each Genbank.add_record d records with
  | Ok _ => annotated records
  | Err e => record_failure records e
  end.
Proof.
  revert d. induction records as [|r rs IH]; intros d; [by constructor|].
  cbn [for_each]. pose proof (add_record_cases r d) as Hr.
  destruct (Genbank.add_record d r) as [d'|e]; simpl.
  - specialize (IH d'). destruct (for_each Genbank.add_record d' rs) as [d''|e].
    + apply Forall_cons. by split.
    + destruct IH as (r' & Hin & H). exists r'. split; [by right|done].
  - exists r. split; [left|done].
Qed.

(** X10: [read_genbank] returns exactly when every record has a [gi]
    annotation and every CDS a protein identifier; otherwise it raises
    [KeyError] for [gi] on a record without this annotation, [KeyError]
    for [protein_id] on a CDS without this qualifier, or [IndexError] on
    a CDS whose qualifier has no value. *)
Theorem read_genbank_errors (records : list Genbank.SeqRecord) :
  ((∃ ft_dict, Genbank.read_genbank records = Ok ft_dict) ↔ annotated records) ∧
  (∀ e, Genbank.read_genbank records = Err e →
        ∃ record, record ∈ records ∧
          ((e = KeyError "gi" ∧ Genbank.annotations record !! "gi" = None) ∨
           ∃ ft, ft ∈ Genbank.features record ∧ Genbank.type ft = "CDS" ∧
                 ((e = KeyError "protein_id" ∧
                   Genbank.qualifiers ft !! "protein_id" = None) ∨
                  (e = IndexError ∧
                   Genbank.qualifiers ft !! "protein_id" = Some [])))).
Proof.
  pose proof (add_records_cases records ∅) as H. fold (Genbank.read_genbank records) in H.
  split.
  - split.
    + intros [d Hd]. by rewrite Hd in H.
    + intros Hann. exists (store_all ∅ (entries records)). by apply add_records_entries.
  - intros e He. rewrite He in H. exact H.
Qed.

(** ** Loading files together or one after the other *)

Lemma add_feature_union (name : string) (d d' : gmap string Feature) (ft : Genbank.SeqFeature) :
  Genbank.add_feature name (d' ∪ d) ft
  = (x ← Genbank.add_feature name d' ft ; Ok (x ∪ d)).
Proof.
  pose proof (add_feature_cases name (d' ∪ d) ft) as H1.
  pose proof (add_feature_cases name d' ft) as H2.
  destruct (Genbank.qualifiers ft !! "protein_id") as [[|pid q]|].
  - by rewrite H1, H2.
  - destruct H1 as [_ ->], H2 as [_ ->]. simpl. by rewrite insert_union_l.
  - by rewrite H1, H2.
Qed.

Lemma add_features_union (name : string) (fts : list Genbank.SeqFeature)
    (d d' : gmap string Feature) :
  for_each (Genbank.add_feature name) (d' ∪ d) fts
  = (x ← for_each (Genbank.add_feature name) d' fts ; Ok (x ∪ d)).
Proof.
  revert d'. induction fts as [|ft fts IH]; intros d'; [done|].
  cbn [for_each]. rewrite add_feature_union.
  destruct (Genbank.add_feature name d' ft) as [x|e]; simpl; [apply IH|done].
Qed.

Lemma add_records_union (records : list Genbank.SeqRecord) (d d' : gmap string Feature) :
  for_each Genbank.add_record (d' ∪ d) records
  = (x ← for_each Genbank.add_record d' records ; Ok (x ∪ d)).
Proof.
  revert d'. induction records as [|r rs IH]; intros d'; [done|].
  cbn [for_each].
  assert (Genbank.add_record (d' ∪ d) r = (x ← Genbank.add_record d' r ; Ok (x ∪ d))) as ->.
  { unfold Genbank.add_record. destruct (Genbank.record_name r) as [name|e]; simpl; [|done].
    apply add_features_union. }
  destruct (Genbank.add_record d' r) as [x|e]; simpl; [apply IH|done].
Qed.

(** X11: loading two lists of files in one call is loading the first,
    then the second, and merging the two dictionaries with the entries
    of the second list in front; the first exception raised wins. *)
Theorem read_genbank_app (records1 records2 : list Genbank.SeqRecord) :
  Genbank.read_genbank (records1 ++ records2)
  = (ft_dict1 ← Genbank.read_genbank records1 ;
     ft_dict2 ← Genbank.read_genbank records2 ;
     Ok (ft_dict2 ∪ ft_dict1)).
Proof.
  unfold Genbank.read_genbank. rewrite for_each_app.
  destruct (for_each Genbank.add_record ∅ records1) as [d1|e]; simpl; [|done].
  rewrite <- (left_id_L ∅ (∪) d1) at 1. apply add_records_union.
Qed.

(** ** The keys of the feature dictionary *)

Lemma elem_of_feature_entries (name : string) (fts : list Genbank.SeqFeature)
    (pid : string) (v : Feature) :
  (pid, v) ∈ feature_entries name fts ↔
  ∃ ft, ft ∈ fts ∧ Genbank.is_CDS ft ∧ protein_id ft = Some pid ∧
        v = (name, Genbank.location_start ft, Genbank.location_end ft,
             Genbank.location_strand ft).
Proof.
  unfold feature_entries. rewrite list_elem_of_omap. split.
  - intros (ft & [Hcds Hft]%list_elem_of_filter & Hsome).
    destruct (protein_id ft) as [p|] eqn:Hp; [|done]. simpl in Hsome.
    injection Hsome as <- <-. by exists ft.
  - intros (ft & Hft & Hcds & Hp & ->). exists ft. split.
    + by apply list_elem_of_filter.
    + by rewrite Hp.
Qed.

Lemma elem_of_entries (records : list Genbank.SeqRecord) (pid : string) (v : Feature) :
  (pid, v) ∈ entries records ↔
  ∃ record name ft,
    record ∈ records ∧ source_name record = Some name ∧
    ft ∈ Genbank.features record ∧ Genbank.is_CDS ft ∧ protein_id ft = Some pid ∧
    v = (name, Genbank.location_start ft, Genbank.location_end ft,
         Genbank.location_strand ft).
Proof.
  unfold entries. rewrite list_elem_of_bind. split.
  - intros (r & Hin & Hr). destruct (source_name r) as [name|] eqn:Hname;
      [|by apply elem_of_nil in Hin].
    apply elem_of_feature_entries in Hin as (ft & ? & ? & ? & ?).
    by exists r, name, ft.
  - intros (r & name & ft & Hr & Hname & Hft & Hcds & Hp & Hv).
    exists r. split; [|done]. rewrite Hname. apply elem_of_feature_entries. by exists ft.
Qed.

Lemma omap_length_total {A B : Type} (f : A → option B) (l : list A) :
  Forall (fun x => is_Some (f x)) l → length (omap f l) = length l.
Proof.
  induction 1 as [|x l [y Hy] _ IH]; [done|].
  change (omap f (x :: l)) with (match f x with Some y => y :: omap f l | None => omap f l end).
  rewrite Hy. simpl. by rewrite IH.
Qed.

Lemma feature_entries_length (name : string) (fts : list Genbank.SeqFeature) :
  Forall (fun ft => Genbank.is_CDS ft → is_Some (protein_id ft)) fts →
  length (feature_entries name fts) = length (filter Genbank.is_CDS fts).
Proof.
  intros HF. unfold feature_entries. apply omap_length_total.
  apply Forall_forall. intros ft [Hcds Hft]%list_elem_of_filter.
  destruct (proj1 (Forall_forall _ _) HF ft Hft Hcds) as [pid ->]. by eauto.
Qed.

Lemma entries_length (records : list Genbank.SeqRecord) :
  annotated records → length (entries records) = cds_count records.
Proof.
  unfold entries, cds_count. induction 1 as [|r rs [[name Hname] Hfts] _ IH]; [done|].
  change ((r :: rs) ≫= ?f) with (f r ++ (rs ≫= f)).
  rewrite length_app, IH, sum_list_with_cons, Hname.
  by rewrite feature_entries_length.
Qed.

Lemma store_all_cons (d : gmap string Feature) (e : string * Feature)
    (es : list (string * Feature)) :
  store_all d (e :: es) = store_all (<[e.1 := e.2]> d) es.
Proof. reflexivity. Qed.

Lemma store_all_size (d : gmap string Feature) (es : list (string * Feature)) :
  (size (store_all d es) ≤ size d + length es)%nat.
Proof.
  revert d. induction es as [|e es IH]; intros d; [simpl; lia|].
  rewrite store_all_cons. specialize (IH (<[e.1 := e.2]> d)).
  pose proof (map_size_insert e.1 e.2 d) as Hs. simpl length.
  destruct (d !! e.1); simpl in Hs; lia.
Qed.

Lemma store_all_size_eq (d : gmap string Feature) (es : list (string * Feature)) :
  size (store_all d es) = (size d + length es)%nat ↔
  NoDup es.*1 ∧ ∀ k, k ∈ es.*1 → d !! k = None.
Proof.
  revert d. induction es as [|e es IH]; intros d.
  - simpl. split; [intros _; split; [constructor|by intros ? ?%elem_of_nil]|lia].
  - rewrite store_all_cons. rewrite fmap_cons, NoDup_cons. simpl length.
    pose proof (map_size_insert e.1 e.2 d) as Hs.
    pose proof (store_all_size (<[e.1 := e.2]> d) es) as Hle.
    specialize (IH (<[e.1 := e.2]> d)). split.
    + intros Heq. destruct (d !! e.1) eqn:He; simpl in Hs; [lia|].
      destruct (proj1 IH ltac:(lia)) as [Hnd Hnone].
      split; [split; [|done]|].
      * intros Hin. specialize (Hnone _ Hin). by rewrite lookup_insert_eq in Hnone.
      * intros k [->|Hin]%elem_of_cons; [done|].
        specialize (Hnone _ Hin). destruct (decide (e.1 = k)) as [<-|Hne].
        -- by rewrite lookup_insert_eq in Hnone.
        -- by rewrite lookup_insert_ne in Hnone.
    + intros [[Hnin Hnd] Hnone].
      rewrite (Hnone e.1 ltac:(left)) in Hs. simpl in Hs.
      rewrite (proj2 IH); [lia|]. split; [done|].
      intros k Hin. rewrite lookup_insert_ne; [apply Hnone; by right|].
      intros <-. done.
Qed.

(** X12: the keys of the dictionary returned by [read_genbank] are the
    protein identifiers of the CDS features of the files; the dictionary
    has at most as many entries as there are CDS features, and as many
    exactly when no two of them have the same protein identifier. *)
Theorem read_genbank_keys (records : list Genbank.SeqRecord) (ft_dict : gmap string Feature) :
  Genbank.read_genbank records = Ok ft_dict →
  (∀ pid, is_Some (ft_dict !! pid) ↔
          ∃ record ft, record ∈ records ∧ ft ∈ Genbank.features record ∧
                       Genbank.type ft = "CDS" ∧ protein_id ft = Some pid) ∧
  (size ft_dict ≤ cds_count records)%nat ∧
  (size ft_dict = cds_count records ↔ NoDup (entries records).*1).
Proof.
  intros Hok.
  pose proof (add_records_cases records ∅) as Hann.
  fold (Genbank.read_genbank records) in Hann. rewrite Hok in Hann.
  pose proof (add_records_entries records ∅ Hann) as Hd.
  fold (Genbank.read_genbank records) in Hd. rewrite Hok in Hd. injection Hd as ->.
  split; [|split].
  - intros pid. rewrite store_all_lookup. split.
    + destruct (last _) as [[p v]|] eqn:Hlast; [|rewrite lookup_empty; by intros [? ?]].
      intros _. apply last_Some_elem_of, list_elem_of_filter in Hlast as [Hp Hin].
      simpl in Hp. subst p.
      apply elem_of_entries in Hin as (r & name & ft & ? & ? & ? & ? & ? & ?).
      by exists r, ft.
    + intros (r & ft & Hr & Hft & Hcds & Hp).
      destruct (proj1 (Forall_forall _ _) Hann r Hr) as [[name Hname] _].
      assert ((pid, (name, Genbank.location_start ft, Genbank.location_end ft,
                     Genbank.location_strand ft)) ∈ entries records) as Hin.
      { apply elem_of_entries. by exists r, name, ft. }
      destruct (filter (fun e : string * Feature => e.1 = pid) (entries records))
        as [|e es] eqn:Hf.
      * exfalso. eapply filter_nil_not_elem_of; [exact Hf| |exact Hin]. done.
      * destruct (last (e :: es)) as [x|] eqn:Hl; [by eauto|].
        by apply last_None in Hl.
  - rewrite <- (entries_length records Hann).
    pose proof (store_all_size ∅ (entries records)) as H.
    rewrite map_size_empty in H. lia.
  - rewrite <- (entries_length records Hann).
    pose proof (store_all_size_eq ∅ (entries records)) as H.
    rewrite map_size_empty in H. simpl in H. rewrite H.
    split; [by intros [? _]|]. intros Hnd. split; [done|]. intros k _. apply lookup_empty.
Qed.

(** ** Instances of the further properties *)

Lemma write_crunch_lines_witness :
  ∃ f, f ∈ scenario_files ∧ Writer.path f = "data/orgA_vs_orgB.crunch" ∧
       Writer.crunch_line (Writer.sorted2 ("orgA", 0, 10, 1) ("orgB", 5, 15, 1))
       ∈ Writer.lines f.
Proof.
  apply (proj2 (write_crunch_lines [["id1"; "id2"]; ["id3"]] scenario_features "data"
                  scenario_files ltac:(vm_compute; reflexivity) _ _)).
  exists ["id1"; "id2"], 0%nat, 1%nat, "id1", "id2",
    ("orgA", 0, 10, 1), ("orgB", 5, 15, 1), "orgA_vs_orgB".
  split; [left|]. split; [lia|]. repeat split; reflexivity.
Defined.

(** The grouping loop on the cluster [(x1, x2, x3)]. *)
Lemma example_group_pairs :
  Writer.group_pairs [["x1"; "x2"; "x3"]] example_features
  = Ok (Writer.add_entry "NC_1_vs_NC_2"
          (("gi|1|ref|NC_1.1", 20, 30, 1), ("gi|2|ref|NC_2.1", 5, 15, -1))
          (Writer.add_entry "NC_1_vs_NC_1"
             (("gi|1|ref|NC_1.1", 0, 10, 1), ("gi|1|ref|NC_1.1", 20, 30, 1))
             (Writer.add_entry "NC_1_vs_NC_2"
                (("gi|1|ref|NC_1.1", 0, 10, 1), ("gi|2|ref|NC_2.1", 5, 15, -1)) ∅))).
Proof.
  unfold Writer.group_pairs. cbn [for_each Writer.combinations2 fmap list_fmap app].
  assert (example_features !! "x1" = Some ("gi|1|ref|NC_1.1", 0, 10, 1)) as H1
    by (by vm_compute).
  assert (example_features !! "x2" = Some ("gi|2|ref|NC_2.1", 5, 15, -1)) as H2
    by (by vm_compute).
  assert (example_features !! "x3" = Some ("gi|1|ref|NC_1.1", 20, 30, 1)) as H3
    by (by vm_compute).
  rewrite (process_pair_resolved example_features _ "x1" "x2" _ _ "NC_1_vs_NC_2" H1 H2)
    by (by vm_compute).
  simpl mbind.
  rewrite (process_pair_resolved example_features _ "x1" "x3" _ _ "NC_1_vs_NC_1" H1 H3)
    by (by vm_compute).
  simpl mbind.
  rewrite (process_pair_resolved example_features _ "x2" "x3" _ _ "NC_1_vs_NC_2" H2 H3)
    by (by vm_compute).
  simpl mbind.
  replace (Writer.sorted2 ("gi|1|ref|NC_1.1", 0, 10, 1) ("gi|2|ref|NC_2.1", 5, 15, -1))
    with (("gi|1|ref|NC_1.1", 0, 10, 1), ("gi|2|ref|NC_2.1", 5, 15, -1)) by (by vm_compute).
  replace (Writer.sorted2 ("gi|1|ref|NC_1.1", 0, 10, 1) ("gi|1|ref|NC_1.1", 20, 30, 1))
    with (("gi|1|ref|NC_1.1", 0, 10, 1), ("gi|1|ref|NC_1.1", 20, 30, 1)) by (by vm_compute).
  replace (Writer.sorted2 ("gi|2|ref|NC_2.1", 5, 15, -1) ("gi|1|ref|NC_1.1", 20, 30, 1))
    with (("gi|1|ref|NC_1.1", 20, 30, 1), ("gi|2|ref|NC_2.1", 5, 15, -1)) by (by vm_compute).
  reflexivity.
Qed.

Lemma one_group_per_source_pair_witness :
  Writer.sorted2 ("gi|2|ref|NC_2.1", 5, 15, -1) ("gi|1|ref|NC_1.1", 20, 30, 1)
  = (("gi|1|ref|NC_1.1", 20, 30, 1), ("gi|2|ref|NC_2.1", 5, 15, -1)) ∧
  (("gi|1|ref|NC_1.1", 0, 10, 1), ("gi|2|ref|NC_2.1", 5, 15, -1))
  ≠ (("gi|1|ref|NC_1.1", 20, 30, 1), ("gi|2|ref|NC_2.1", 5, 15, -1)) ∧
  "NC_1_vs_NC_2" = "NC_1_vs_NC_2" ∧
  feature_le ("gi|1|ref|NC_1.1", 0, 10, 1) ("gi|2|ref|NC_2.1", 5, 15, -1) ∧
  String.compare "gi|2|ref|NC_2.1" "gi|1|ref|NC_1.1" ≠ Lt.
Proof.
  split; [vm_compute; reflexivity|]. split; [discriminate|].
  refine (one_group_per_source_pair [["x1"; "x2"; "x3"]] example_features _
            "NC_1_vs_NC_2" "NC_1_vs_NC_2"
            (("gi|1|ref|NC_1.1", 0, 10, 1), ("gi|2|ref|NC_2.1", 5, 15, -1))
            (("gi|1|ref|NC_1.1", 20, 30, 1), ("gi|2|ref|NC_2.1", 5, 15, -1))
            example_group_pairs _ _ (or_introl (conj eq_refl eq_refl))).
  - apply stored_add_entry. left. apply stored_add_entry. left.
    apply stored_add_entry. right. split; reflexivity.
  - apply stored_add_entry. right. split; reflexivity.
Defined.

Lemma write_crunch_order_irrelevant_witness :
  ∃ files2,
    Writer.write_crunch [["id3"]; ["id2"; "id1"]] scenario_features "data" = Ok files2 ∧
    ∀ p line,
      (∃ f, f ∈ scenario_files ∧ Writer.path f = p ∧ line ∈ Writer.lines f) ↔
      (∃ f, f ∈ files2 ∧ Writer.path f = p ∧ line ∈ Writer.lines f).
Proof.
  assert ([["id1"; "id2"]; ["id3"]] ≡ₚ [["id3"]; ["id1"; "id2"]]) as Hperm
    by (apply (bool_decide_unpack _); vm_compute; exact I).
  assert (Forall2 (≡ₚ) [["id3"]; ["id1"; "id2"]] [["id3"]; ["id2"; "id1"]]) as HF
    by (apply (bool_decide_unpack _); vm_compute; exact I).
  exact (proj2 (write_crunch_order_irrelevant _ _ _ scenario_features "data"
                  scenario_files Hperm HF ltac:(vm_compute; reflexivity))).
Defined.



Lemma write_crunch_line_count_witness :
  (total_lines scenario_files
   ≤ sum_list_with (fun c => (length c * (length c - 1) / 2)%nat)
       [["id1"; "id2"]; ["id3"]])%nat.
Proof.
  apply (write_crunch_line_count [["id1"; "id2"]; ["id3"]] scenario_features "data").
  vm_compute. reflexivity.
Defined.

Lemma read_mcl_clean_witness :
  Forall (fun cluster =>
            cluster ≠ [] ∧
            Forall (fun id => contains "|"%char id = false ∧ spaceless id = true) cluster)
         [["YP_1.1"; "YP_2.1"]; ["YP_3.1"]].
Proof.
  apply (read_mcl_clean example_cluster_file).
  vm_compute. reflexivity.
Defined.

Lemma read_genbank_keys_witness :
  (size (store_all ∅ (entries example_records)) ≤ cds_count example_records)%nat.
Proof.
  assert (annotated example_records) as Hann
    by (apply (bool_decide_unpack _); vm_compute; exact I).
  exact (proj1 (proj2 (read_genbank_keys example_records _
                         (add_records_entries example_records ∅ Hann)))).
Defined.

(** ** The pairs of a cluster in the writer *)

Lemma combinations2_Forall2 {A B : Type} (R : A → B → Prop) (l : list A) (k : list B) :
  Forall2 R l k →
  Forall2 (fun p q => R p.1 q.1 ∧ R p.2 q.2)
          (Writer.combinations2 l) (Writer.combinations2 k).
Proof.
  induction 1 as [|x y l k Hxy HF IH]; [constructor|].
  cbn [Writer.combinations2]. apply Forall2_app; [|done].
  clear IH. induction HF as [|x' y' l k Hxy' HF IH]; [constructor|].
  rewrite !fmap_cons. constructor; [done|apply IH].
Qed.

Lemma sorted2_inj_r (x y y' : Feature) :
  Writer.sorted2 x y = Writer.sorted2 x y' → y = y'.
Proof.
  destruct (sorted2_cases x y) as [-> | ->], (sorted2_cases x y') as [-> | ->];
    intros H; inversion H; congruence.
Qed.

Lemma sorted2_components (x y u v : Feature) :
  Writer.sorted2 x y = Writer.sorted2 u v → x = u ∨ x = v.
Proof.
  destruct (sorted2_cases x y) as [-> | ->], (sorted2_cases u v) as [-> | ->];
    intros H; inversion H; auto.
Qed.

Lemma combinations2_members {A : Type} (l : list A) (x y : A) :
  (x, y) ∈ Writer.combinations2 l → x ∈ l ∧ y ∈ l.
Proof.
  intros (i & j & _ & Hi & Hj)%elem_of_combinations2.
  split; apply list_elem_of_lookup; by eauto.
Qed.

(** Distinct features give distinct sorted pairs. *)
Lemma sorted_pairs_NoDup (fs : list Feature) :
  NoDup fs →
  NoDup ((fun q => Writer.sorted2 q.1 q.2) <$> Writer.combinations2 fs).
Proof.
  induction 1 as [|x fs Hx Hnd IH]; [constructor|].
  cbn [Writer.combinations2]. rewrite fmap_app. apply NoDup_app. split; [|split; [|done]].
  - rewrite <- list_fmap_compose. apply NoDup_fmap_2_strong; [|done].
    intros y y' _ _ Heq. simpl in Heq. by apply sorted2_inj_r in Heq.
  - intros e He Hin.
    apply list_elem_of_fmap in He as (q & -> & Hq).
    apply list_elem_of_fmap in Hq as (y & -> & Hy). simpl in Hin.
    apply list_elem_of_fmap in Hin as ([u v] & Heq & Huv). simpl in Heq.
    apply combinations2_members in Huv as [Hu Hv].
    destruct (sorted2_components _ _ _ _ Heq) as [-> | ->]; done.
Qed.

Lemma total_entries_add_new (key : string) (entry : Feature * Feature)
    (d : gmap string (gset (Feature * Feature))) :
  ¬ stored d key entry →
  total_entries (Writer.add_entry key entry d) = S (total_entries d).
Proof.
  intros Hnew. unfold total_entries, Writer.add_entry.
  destruct (d !! key) as [v|] eqn:Hv; simpl default.
  - assert (entry ∉ v) as Hnin by (intros Hin; apply Hnew; by exists v).
    rewrite <- insert_delete_eq.
    rewrite map_to_list_insert by apply lookup_delete_eq.
    rewrite <- (map_to_list_delete d key v Hv). rewrite !sum_list_with_cons.
    simpl snd. rewrite size_union by (by apply disjoint_singleton_r).
    rewrite size_singleton. lia.
  - rewrite map_to_list_insert by done. rewrite sum_list_with_cons.
    simpl snd. rewrite (left_id_L ∅ (∪)), size_singleton. lia.
Qed.

(** When the pairs resolve to distinct sorted pairs, none of them stored
    yet, the loop stores one more pair at each step. *)
Lemma for_each_pairs_count (features : gmap string Feature)
    (pairs : list (string * string)) (fpairs : list (Feature * Feature))
    (d : gmap string (gset (Feature * Feature))) :
  Forall2 (fun p q => features !! p.1 = Some q.1 ∧ features !! p.2 = Some q.2)
          pairs fpairs →
  NoDup ((fun q => Writer.sorted2 q.1 q.2) <$> fpairs) →
  (∀ q key, q ∈ fpairs → ¬ stored d key (Writer.sorted2 q.1 q.2)) →
  ∃ d', for_each (Writer.process_pair features) d pairs = Ok d' ∧
        total_entries d' = (total_entries d + length pairs)%nat.
Proof.
  intros HF. revert d.
  induction HF as [|[a b] [f1 f2] pairs fpairs [Ha Hb] HF IH]; intros d Hnd Hnew.
  - exists d. split; [done|]. simpl. lia.
  - simpl in Ha, Hb. rewrite fmap_cons in Hnd. apply NoDup_cons in Hnd as [Hnin Hnd].
    destruct (entry_key_total (Writer.sorted2 f1 f2)) as [key Hkey].
    cbn [for_each]. rewrite (process_pair_resolved _ _ _ _ _ _ _ Ha Hb Hkey). simpl.
    destruct (IH (Writer.add_entry key (Writer.sorted2 f1 f2) d) Hnd)
      as (d' & -> & Hcount).
    + intros q key' Hq [Hst|[_ Heq]]%stored_add_entry.
      * apply (Hnew q key'); [by right|done].
      * apply Hnin. apply list_elem_of_fmap. by exists q.
    + exists d'. split; [done|]. rewrite Hcount.
      rewrite total_entries_add_new by (apply (Hnew (f1, f2)); left).
      simpl length. lia.
Qed.

Lemma write_crunch_pair_count (cluster : list string) (features : gmap string Feature)
    (fs : list Feature) (outdir : string) :
  Forall2 (fun m f => features !! m = Some f) cluster fs → NoDup fs →
  ∃ files,
    Writer.write_crunch [cluster] features outdir = Ok files ∧
    total_lines files = (length cluster * (length cluster - 1) / 2)%nat.
Proof.
  intros HF Hnd. unfold Writer.write_crunch, Writer.group_pairs. cbn [for_each].
  destruct (for_each_pairs_count features (Writer.combinations2 cluster)
              (Writer.combinations2 fs) ∅) as (d & -> & Hcount).
  - by apply (combinations2_Forall2 (fun m f => features !! m = Some f)).
  - by apply sorted_pairs_NoDup.
  - intros q key _ (v & Hv & _). by rewrite lookup_empty in Hv.
  - simpl. exists (Writer.write_files outdir d). split; [done|].
    rewrite total_lines_write_files, Hcount, combinations2_length.
    unfold total_entries. by rewrite map_to_list_empty.
Qed.

(** C4: the pairs formed for a cluster are exactly the pairs of members
    at two increasing positions [i < j], n * (n - 1) / 2 of them for n
    members, 3 for a cluster [(a, b, c)]; enumerating the members in
    another order gives as many pairs, and the same ones up to the order
    inside a pair.  These are the pairs of [write_crunch]: its grouping
    loop runs over the pairs of each cluster in turn; when it returns,
    every pair of a cluster has its line in a file and every line
    written is the line of a pair of a cluster; a cluster of n members
    with n distinct features gives exactly n * (n - 1) / 2 lines; and
    the comparison map of a cluster does not depend on the order of its
    members. *)
Theorem combinations2_all_pairs (cluster cluster' : list string) :
  cluster ≡ₚ cluster' →
  length (Writer.combinations2 cluster) = (length cluster * (length cluster - 1) / 2)%nat ∧
  (∀ a b, (a, b) ∈ Writer.combinations2 cluster ↔
          ∃ i j : nat, (i < j)%nat ∧ cluster !! i = Some a ∧ cluster !! j = Some b) ∧
  length (Writer.combinations2 cluster') = length (Writer.combinations2 cluster) ∧
  (∀ a b, (a, b) ∈ Writer.combinations2 cluster →
          (a, b) ∈ Writer.combinations2 cluster' ∨ (b, a) ∈ Writer.combinations2 cluster') ∧
  (∀ a b c : string,
      Writer.combinations2 [a; b; c] = [(a, b); (a, c); (b, c)]) ∧
  (∀ clusters features,
      Writer.group_pairs clusters features
      = for_each (Writer.process_pair features) ∅ (clusters ≫= Writer.combinations2)) ∧
  (∀ clusters features outdir files,
      Writer.write_crunch clusters features outdir = Ok files →
      (cluster ∈ clusters →
       ∀ a b, (a, b) ∈ Writer.combinations2 cluster →
         ∃ fa fb key f,
           features !! a = Some fa ∧ features !! b = Some fb ∧
           entry_key (Writer.sorted2 fa fb) = Ok key ∧
           f ∈ files ∧ Writer.path f = Writer.crunch_path outdir key ∧
           Writer.crunch_line (Writer.sorted2 fa fb) ∈ Writer.lines f) ∧
      (∀ f line, f ∈ files → line ∈ Writer.lines f →
         ∃ c a b fa fb,
           c ∈ clusters ∧ (a, b) ∈ Writer.combinations2 c ∧
           features !! a = Some fa ∧ features !! b = Some fb ∧
           line = Writer.crunch_line (Writer.sorted2 fa fb))) ∧
  (∀ features fs outdir,
      Forall2 (fun m f => features !! m = Some f) cluster fs → NoDup fs →
      ∃ files,
        Writer.write_crunch [cluster] features outdir = Ok files ∧
        total_lines files = (length cluster * (length cluster - 1) / 2)%nat) ∧
  (∀ features pairs_dict,
      Writer.group_pairs [cluster] features = Ok pairs_dict →
      Writer.group_pairs [cluster'] features = Ok pairs_dict).
Proof.
  intros Hperm.
  split; [apply combinations2_length|].
  split; [intros a b; apply elem_of_combinations2|].
  split; [rewrite !combinations2_length; by rewrite (Permutation_length Hperm)|].
  split; [intros a b; by apply combinations2_perm|].
  split; [done|].
  split; [intros clusters features; apply group_pairs_flat|].
  split; [|split].
  - intros clusters features outdir files Hw. unfold Writer.write_crunch in Hw.
    destruct (group_pairs_result clusters features)
      as [(d & Hd & Hres & Hsto & _)|(? & ? & Herr & _)]; rewrite ?Herr in Hw; [|done].
    rewrite Hd in Hw. simpl in Hw. injection Hw as <-. split.
    + intros Hc a b Hab.
      assert ((a, b) ∈ all_pairs clusters) as Hall
        by (apply list_elem_of_bind; by exists cluster).
      destruct (pair_in_cluster clusters (a, b) a Hall (or_introl eq_refl))
        as (c1 & Hc1 & Hlen1 & Ha).
      destruct (pair_in_cluster clusters (a, b) b Hall (or_intror eq_refl))
        as (c2 & Hc2 & Hlen2 & Hb).
      destruct (Hres c1 a Hc1 Hlen1 Ha) as [fa Hfa], (Hres c2 b Hc2 Hlen2 Hb) as [fb Hfb].
      destruct (entry_key_total (Writer.sorted2 fa fb)) as [key Hkey].
      assert (stored d key (Writer.sorted2 fa fb)) as (v & Hv & Hin).
      { apply Hsto. by exists a, b, fa, fb. }
      exists fa, fb, key. eexists. repeat split; try done.
      * apply elem_of_write_files. by exists key, v.
      * done.
      * simpl. apply list_elem_of_fmap_2. by apply elem_of_elements.
    + intros f line (key & v & Hv & ->)%elem_of_write_files Hline. simpl in Hline.
      apply list_elem_of_fmap in Hline as (entry & -> & Hin%elem_of_elements).
      assert (stored d key entry) as Hst by (by exists v).
      apply Hsto in Hst as (a & b & fa & fb & Hab & Ha & Hb & -> & _).
      apply list_elem_of_bind in Hab as (c & Hab & Hc).
      by exists c, a, b, fa, fb.
  - intros features fs outdir. apply write_crunch_pair_count.
  - intros features d. apply group_pairs_reordered.
    + intros c ->%list_elem_of_singleton. exists cluster'. split; [left|done].
    + intros c ->%list_elem_of_singleton. exists cluster. split; [left|done].
Qed.

Lemma combinations2_all_pairs_witness :
  length (Writer.combinations2 ["x3"; "x1"; "x2"])
  = length (Writer.combinations2 ["x1"; "x2"; "x3"]) ∧
  length (Writer.combinations2 ["x1"; "x2"; "x3"]) = 3%nat ∧
  ∃ files,
    Writer.write_crunch [["x1"; "x2"; "x3"]] example_features "data" = Ok files ∧
    total_lines files = 3%nat.
Proof.
  assert (["x1"; "x2"; "x3"] ≡ₚ ["x3"; "x1"; "x2"]) as Hperm
    by (apply (bool_decide_unpack _); vm_compute; exact I).
  destruct (combinations2_all_pairs ["x1"; "x2"; "x3"] ["x3"; "x1"; "x2"] Hperm)
    as (H1 & _ & H2 & _ & _ & _ & _ & H3 & _).
  split; [exact H2|]. split; [exact H1|].
  apply (H3 example_features
           [("gi|1|ref|NC_1.1", 0, 10, 1); ("gi|2|ref|NC_2.1", 5, 15, -1);
            ("gi|1|ref|NC_1.1", 20, 30, 1)] "data").
  - apply (bool_decide_unpack _). vm_compute. exact I.
  - apply (bool_decide_unpack _). vm_compute. exact I.
Defined.
